(** * The OpenVPN [server.conf] patcher of [ebaws/openvpn.py]

    A shallow embedding of [ConfigLine] and of the configuration-file part of
    [OpenVpn] (Python 2), together with the properties of the line patcher
    that were checked against it.

    Python [str] values are byte strings and are modelled by [string];
    [None]-able attributes are [option]s; exceptions are explicit results;
    the file system is a finite map from paths to file contents. *)

From Stdlib Require Import Ascii String NArith.
From stdpp Require Import base option list strings gmap.

Local Open Scope string_scope.

(** ** Python strings *)

Module PyStr.

Definition ch (n : nat) : ascii := ascii_of_nat n.

Definition in_range (lo hi c : ascii) : bool :=
  ((N_of_ascii lo <=? N_of_ascii c) && (N_of_ascii c <=? N_of_ascii hi))%N.

(** [str.isspace] of one byte in the C locale; the same six bytes make up
    the class [\s] of the [re] module on byte strings. *)
Definition is_space (c : ascii) : bool :=
  Ascii.eqb c " " || in_range (ch 9) (ch 13) c.

Fixpoint lstrip (s : string) : string :=
  match s with
  | String c s' => if is_space c then lstrip s' else s
  | EmptyString => EmptyString
  end.

Fixpoint rstrip (s : string) : string :=
  match s with
  | EmptyString => EmptyString
  | String c s' =>
      match rstrip s' with
      | EmptyString => if is_space c then EmptyString else String c EmptyString
      | r => String c r
      end
  end.

(** [s.strip()] *)
Definition strip (s : string) : string := rstrip (lstrip s).

(** What the conversion [%s] prints for an attribute that may be [None]. *)
Definition fmt_s (v : option string) : string :=
  match v with
  | Some s => s
  | None => "None"
  end.

Definition NL : string := String (ch 10) EmptyString.

End PyStr.

(** ** The fragment of [re] used by the classifier

    A backtracking matcher in continuation-passing style.  It tries the
    alternatives in the order of the [sre] engine: a greedy repetition takes
    the longest run first, a lazy one the shortest, an optional group is tried
    before it is skipped.  The spans of the groups are recorded as the match
    proceeds, so a group of an abandoned branch is forgotten with it. *)

Module Re.
Import PyStr.

Inductive regex : Type :=
| Bol                               (* ^ *)
| Eol                               (* $ *)
| Chr (c : ascii)                   (* a literal character *)
| Cls (p : ascii -> bool)           (* a character class, also . and \s *)
| Seq (r1 r2 : regex)
| Alt (r1 r2 : regex)               (* r1|r2 *)
| Opt (r : regex)                   (* r? *)
| Star (p : ascii -> bool)          (* c* for a class c *)
| Plus (p : ascii -> bool)          (* c+ *)
| PlusLazy (p : ascii -> bool)      (* c+? *)
| Group (n : nat) (r : regex).      (* the n-th parenthesis *)

Infix "⨾" := Seq (at level 45, right associativity).

(** [.] without DOTALL *)
Definition dot (c : ascii) : bool := negb (Ascii.eqb c (ch 10)).

(** [[a-zA-Z0-9\-_]] *)
Definition token_char (c : ascii) : bool :=
  in_range "a" "z" c || in_range "A" "Z" c || in_range "0" "9" c
  || Ascii.eqb c "-" || Ascii.eqb c "_".

Definition spans := list (nat * (nat * nat)).

Fixpoint span_of (n : nat) (g : spans) : option (nat * nat) :=
  match g with
  | [] => None
  | (m, sp) :: g' => if Nat.eqb n m then Some sp else span_of n g'
  end.

(** A continuation receives the position reached, the text left and the
    groups closed so far. *)
Definition cont := nat -> string -> spans -> option spans.

Definition one (p : ascii -> bool) (k : cont) : cont :=
  fun pos s g =>
    match s with
    | String c s' => if p c then k (S pos) s' g else None
    | EmptyString => None
    end.

Fixpoint star_greedy (p : ascii -> bool) (k : cont) (pos : nat) (s : string)
    (g : spans) : option spans :=
  match s with
  | String c s' =>
      if p c then
        match star_greedy p k (S pos) s' g with
        | Some r => Some r
        | None => k pos s g
        end
      else k pos s g
  | EmptyString => k pos s g
  end.

Fixpoint star_lazy (p : ascii -> bool) (k : cont) (pos : nat) (s : string)
    (g : spans) : option spans :=
  match k pos s g with
  | Some r => Some r
  | None =>
      match s with
      | String c s' => if p c then star_lazy p k (S pos) s' g else None
      | EmptyString => None
      end
  end.

Fixpoint run (r : regex) (k : cont) : cont :=
  match r with
  | Bol => fun pos s g => if Nat.eqb pos 0 then k pos s g else None
  | Eol => fun pos s g =>
      match s with
      | EmptyString => k pos s g
      | String c EmptyString => if Ascii.eqb c (ch 10) then k pos s g else None
      | _ => None
      end
  | Chr c => one (Ascii.eqb c) k
  | Cls p => one p k
  | Seq r1 r2 => run r1 (run r2 k)
  | Alt r1 r2 => fun pos s g =>
      match run r1 k pos s g with
      | Some x => Some x
      | None => run r2 k pos s g
      end
  | Opt r1 => fun pos s g =>
      match run r1 k pos s g with
      | Some x => Some x
      | None => k pos s g
      end
  | Star p => star_greedy p k
  | Plus p => one p (star_greedy p k)
  | PlusLazy p => one p (star_lazy p k)
  | Group n r1 => fun pos s g =>
      run r1 (fun pos' s' g' => k pos' s' ((n, (pos, pos')) :: g')) pos s g
  end.

(** A match object: the subject and the spans of the groups that took
    part in the match. *)
Record match_object := { subject : string; groups : spans }.

(** [re.match(pattern, s)] *)
Definition re_match (r : regex) (s : string) : option match_object :=
  match run r (fun _ _ g => Some g) 0 s [] with
  | Some g => Some {| subject := s; groups := g |}
  | None => None
  end.

(** [m.group(n)]: [None] when the group did not take part. *)
Definition group (m : match_object) (n : nat) : option string :=
  match span_of n (groups m) with
  | Some (a, b) => Some (substring a (b - a) (subject m))
  | None => None
  end.

End Re.

(** ** [ConfigLine] *)

Inductive line_type : Set :=
| CONFIG_LINE_BLANK
| CONFIG_LINE_COMMENT
| CONFIG_LINE_CMD_COMMENT
| CONFIG_LINE_CMD.

Global Instance line_type_eq_dec : EqDecision line_type.
Proof. solve_decision. Defined.

(** The attributes of a [ConfigLine] object.  [params] is always a string:
    the constructor replaces [None] by [''] and [build] assigns a stripped
    group.  [comment] is a string after the constructor, but [build] assigns
    [group(4)] to it, which is [None] when the line has no trailing comment. *)
Record ConfigLine : Type := mkConfigLine {
  idx : option nat;
  _raw : option string;
  ltype : option line_type;
  cmd : option string;
  params : string;
  comment : option string
}.

Global Instance ConfigLine_eq_dec : EqDecision ConfigLine.
Proof. solve_decision. Defined.

Definition set_ltype (t : line_type) (cl : ConfigLine) : ConfigLine :=
  mkConfigLine (idx cl) (_raw cl) (Some t) (cmd cl) (params cl) (comment cl).

(** Exceptions of the modelled code. *)
Inductive exn : Set :=
| AttributeError   (* an attribute of [None] *)
| NameError (name : string)
| IndexError
| TypeError.

Inductive result (A : Type) : Type :=
| Ok (a : A)
| Raise (e : exn).
Arguments Ok {A} a.
Arguments Raise {A} e.

Module ConfigLine.
Import PyStr Re.

(** [__init__] *)
Definition init (idx : option nat) (raw : option string)
    (ltype : option line_type) (cmd : option string)
    (params comment : option string) : ConfigLine :=
  mkConfigLine idx raw ltype cmd
    (match params with Some p => p | None => "" end)
    (Some (match comment with Some c => c | None => "" end)).

(** The property [raw]: the text of the line.  The stored text is [None]
    for a line made by the constructor without [raw]. *)
Definition raw (self : ConfigLine) : option string :=
  if bool_decide (ltype self = Some CONFIG_LINE_COMMENT
                  ∨ ltype self = Some CONFIG_LINE_BLANK)
  then _raw self
  else
    let res := if bool_decide (ltype self = Some CONFIG_LINE_CMD)
               then "" else ";" in
    Some (res +:+ fmt_s (cmd self) +:+ " " +:+ params self +:+ " "
              +:+ fmt_s (comment self)).

(** [^\s*#.*] *)
Definition cmt_re : regex :=
  Bol ⨾ Star is_space ⨾ Chr "#" ⨾ Star dot.

(** [^\s*;.*] *)
Definition cmd_cmt_re : regex :=
  Bol ⨾ Star is_space ⨾ Chr ";" ⨾ Star dot.

(** [^\s*(;)?\s*([a-zA-Z0-9\-_]+)\s+(.+?)(\s*(#|;).+)?$] *)
Definition cmd_re : regex :=
  Bol ⨾ Star is_space ⨾ Opt (Group 1 (Chr ";")) ⨾ Star is_space
  ⨾ Group 2 (Plus token_char) ⨾ Plus is_space ⨾ Group 3 (PlusLazy dot)
  ⨾ Opt (Group 4 (Star is_space ⨾ Group 5 (Alt (Chr "#") (Chr ";")) ⨾ Plus dot))
  ⨾ Eol.

(** [ConfigLine.build(line, idx)].  When neither the directive pattern nor
    the [;] pattern matches, [cmd_match] is [None] and [cmd_match.group(1)]
    raises [AttributeError]. *)
Definition build (line : string) (idx : nat) : result ConfigLine :=
  let line := strip line in
  let cl := init (Some idx) (Some line) None None None None in
  if Nat.eqb (String.length (strip line)) 0 then
    Ok (set_ltype CONFIG_LINE_BLANK cl)
  else
    match re_match cmt_re line with
    | Some _ => Ok (set_ltype CONFIG_LINE_COMMENT cl)
    | None =>
        let cmd_cmt_match := re_match cmd_cmt_re line in
        let cmd_match := re_match cmd_re line in
        match cmd_match, cmd_cmt_match with
        | None, Some _ => Ok (set_ltype CONFIG_LINE_COMMENT cl)
        | None, None => Raise AttributeError
        | Some m, _ =>
            let t := match group m 1 with
                     | None => CONFIG_LINE_CMD
                     | Some _ => CONFIG_LINE_CMD_COMMENT
                     end in
            match group m 2, group m 3 with
            | Some g2, Some g3 =>
                Ok (mkConfigLine (Some idx) (Some line) (Some t)
                      (Some (strip g2)) (strip g3) (group m 4))
            | _, _ => Raise AttributeError
            end
        end
    end.

End ConfigLine.

(** ** [OpenVpn]: reading and patching [server.conf] *)

(** The two attributes of an [OpenVpn] object that the configuration methods
    use.  [server_config_data] is [None] until the file has been loaded. *)
Record OpenVpn : Type := mkOpenVpn {
  server_config_data : option (list ConfigLine);
  server_config_modified : bool
}.

(** The file system: the files that exist, with their contents. *)
Abbreviation filesystem := (gmap string string).

(** How a method call ends: it returns a value or raises, and in both cases
    leaves the object in some state. *)
Inductive outcome (A : Type) : Type :=
| Return (a : A) (self : OpenVpn)
| Raised (e : exn) (self : OpenVpn).
Arguments Return {A} a self.
Arguments Raised {A} e self.

Definition final_state {A} (o : outcome A) : OpenVpn :=
  match o with
  | Return _ self => self
  | Raised _ self => self
  end.

(** The [values] argument of [set_config_value]: [None], one string, or a
    list of strings. *)
Inductive pyvalues : Type :=
| VNone
| VStr (s : string)
| VList (l : list string).

Module OpenVpn.
Import PyStr.

Definition SETTINGS_DIR : string := "/etc/openvpn".
Definition SETTINGS_FILE : string := "server.conf".

(** [os.path.join(SETTINGS_DIR, SETTINGS_FILE)] for a relative file name
    and a directory without a trailing slash. *)
Definition get_config_file_path : string :=
  SETTINGS_DIR +:+ "/" +:+ SETTINGS_FILE.

(** Iterating over a file object: the lines, each with its newline; the
    last line has none when the file does not end with one. *)
Fixpoint readlines (s : string) : list string :=
  match s with
  | EmptyString => []
  | String c s' =>
      if Ascii.eqb c (ch 10) then String c EmptyString :: readlines s'
      else match readlines s' with
           | [] => [String c EmptyString]
           | l :: ls => String c l :: ls
           end
  end.

(** The loop [for idx, line in enumerate(fh)] of the loader. *)
Fixpoint build_lines (idx : nat) (ls : list string) : result (list ConfigLine) :=
  match ls with
  | [] => Ok []
  | line :: ls' =>
      match ConfigLine.build line idx with
      | Raise e => Raise e
      | Ok ln =>
          match build_lines (S idx) ls' with
          | Raise e => Raise e
          | Ok lines => Ok (ln :: lines)
          end
      end
  end.

(** [load_config_file_lines] *)
Definition load_config_file_lines (fs : filesystem) : result (list ConfigLine) :=
  let cpath := get_config_file_path in
  match fs !! cpath with
  | None => Ok []
  | Some content => build_lines 0 (readlines content)
  end.

(** The normalisation of [values] at the head of [set_config_value]. *)
Definition normalize (values : pyvalues) : list string :=
  match values with
  | VList l => l
  | VNone => []
  | VStr s => [s]
  end.

(** [values.index(x)] *)
Fixpoint index (x : string) (values : list string) : option nat :=
  match values with
  | [] => None
  | v :: values' => if bool_decide (v = x) then Some 0 else S <$> index x values'
  end.

(** The variables that the first loop updates. *)
Record scan_state : Type := mkScan {
  last_cmd_idx : nat;
  file_changed : bool;
  values_set : list bool
}.

Definition is_type (t : line_type) (cfg : ConfigLine) : bool :=
  bool_decide (ltype cfg = Some t).

(** [values_set[value_idx] = True], guarded by [value_idx is not None] *)
Definition mark (value_idx : option nat) (values_set : list bool) : list bool :=
  match value_idx with
  | Some i => <[i := true]> values_set
  | None => values_set
  end.

(** One turn of the first loop, on the line [cfg] at position [i]. *)
Definition scan_line (name : string) (values : list string) (remove : bool)
    (i : nat) (cfg : ConfigLine) (st : scan_state) : ConfigLine * scan_state :=
  if negb (is_type CONFIG_LINE_CMD cfg || is_type CONFIG_LINE_CMD_COMMENT cfg)
  then (cfg, st)
  else if negb (bool_decide (cmd cfg = Some name)) then (cfg, st)
  else
    let is_desired_value :=
      bool_decide (params cfg ∈ values) || (remove && Nat.eqb (length values) 0) in
    let value_idx :=
      if negb remove && bool_decide (params cfg ∈ values)
      then index (params cfg) values else None in
    if is_desired_value then
      if is_type CONFIG_LINE_CMD cfg && negb remove then
        (cfg, mkScan i (file_changed st) (mark value_idx (values_set st)))
      else if is_type CONFIG_LINE_CMD cfg then
        (set_ltype CONFIG_LINE_CMD_COMMENT cfg, mkScan i true (values_set st))
      else if is_type CONFIG_LINE_CMD_COMMENT cfg && remove then
        (cfg, mkScan i (file_changed st) (values_set st))
      else
        (set_ltype CONFIG_LINE_CMD cfg, mkScan i true (mark value_idx (values_set st)))
    else if is_type CONFIG_LINE_CMD cfg && negb remove then
      (set_ltype CONFIG_LINE_CMD_COMMENT cfg,
       mkScan i (file_changed st) (values_set st))
    else (cfg, mkScan i (file_changed st) (values_set st)).

(** The first loop, [for idx, cfg in enumerate(self.server_config_data)],
    from position [i] on.  It changes lines in place and keeps the list. *)
Fixpoint scan (name : string) (values : list string) (remove : bool)
    (i : nat) (data : list ConfigLine) (st : scan_state)
    : list ConfigLine * scan_state :=
  match data with
  | [] => ([], st)
  | cfg :: data' =>
      let '(cfg', st') := scan_line name values remove i cfg st in
      let '(rest, st'') := scan name values remove (S i) data' st' in
      (cfg' :: rest, st'')
  end.

(** [l.insert(i, x)]: past the end it appends. *)
Definition list_insert_at {A} (i : nat) (x : A) (l : list A) : list A :=
  take i l ++ x :: drop i l.

(** The head of [set_config_value]: the lines of the document, loaded from
    the file when [server_config_data] is still [None]. *)
Definition ensure_loaded (fs : filesystem) (self : OpenVpn)
    : result (list ConfigLine) :=
  match server_config_data self with
  | Some data => Ok data
  | None => load_config_file_lines fs
  end.

Section AddMissing.
(** The second loop builds the new line with [params=value], and [value]
    is a free name of the method: the loop variable is [cval].  [value]
    stands for what that name is bound to when looked up. *)
Variable value : option string.

(** The second loop, [for idx, cval in enumerate(values)], from position
    [i] on.  It returns the exception raised, if any, with the lines and
    [file_changed] as they are when the loop is left. *)
Fixpoint add_missing (name : string) (last : nat) (values_set : list bool)
    (i : nat) (values : list string) (ctr : nat) (data : list ConfigLine)
    (changed : bool) : option exn * (list ConfigLine * bool) :=
  match values with
  | [] => (None, (data, changed))
  | cval :: values' =>
      match values_set !! i with
      | None => (Some IndexError, (data, changed))
      | Some true => add_missing name last values_set (S i) values' ctr data changed
      | Some false =>
          match value with
          | None => (Some (NameError "value"), (data, changed))
          | Some v =>
              let cl := ConfigLine.init None None (Some CONFIG_LINE_CMD)
                          (Some name) (Some v) None in
              add_missing name last values_set (S i) values' (S ctr)
                (list_insert_at (last + 1 + ctr) cl data) true
          end
      end
  end.

(** [set_config_value(cmd, values, remove)] *)
Definition set_config_value_where (fs : filesystem) (self : OpenVpn)
    (name : string) (values : pyvalues) (remove : bool) : outcome bool :=
  match ensure_loaded fs self with
  | Raise e => Raised e self
  | Ok data =>
      let values := normalize values in
      let '(data, st) :=
        scan name values remove 0 data
          (mkScan 0 false (replicate (length values) false)) in
      if remove then
        Return (file_changed st) (mkOpenVpn (Some data) (file_changed st))
      else
        match add_missing name (last_cmd_idx st) (values_set st) 0 values 0
                data (file_changed st) with
        | (None, (data, changed)) =>
            Return changed (mkOpenVpn (Some data) changed)
        | (Some e, (data, _)) =>
            Raised e (mkOpenVpn (Some data) (server_config_modified self))
        end
  end.
End AddMissing.

(** The module binds no name [value], and neither do the builtins: looking
    it up fails. *)
Definition set_config_value : filesystem -> OpenVpn -> string -> pyvalues
    -> bool -> outcome bool :=
  set_config_value_where None.

(** A call of [set_config_value]: the directive, the values and [remove]. *)
Definition call : Type := string * pyvalues * bool.

(** The object after a sequence of calls, each made in the state the one
    before it left, also when that one raised. *)
Fixpoint run_calls (fs : filesystem) (self : OpenVpn) (cs : list call) : OpenVpn :=
  match cs with
  | [] => self
  | (name, values, remove) :: cs' =>
      run_calls fs (final_state (set_config_value fs self name values remove)) cs'
  end.

(** [len(self.server_config_data)], counting no line before the load. *)
Definition line_count (self : OpenVpn) : nat :=
  match server_config_data self with
  | Some data => length data
  | None => 0
  end.

(** The loop of the flush, [fh.write(cl.raw + '\n')] for each line, on
    top of the text [out] already written.  [None + '\n'] raises
    [TypeError]; what was written until then stays in the file. *)
Fixpoint write_lines (data : list ConfigLine) (out : string)
    : option exn * string :=
  match data with
  | [] => (None, out)
  | cl :: data' =>
      match ConfigLine.raw cl with
      | None => (Some TypeError, out)
      | Some text => write_lines data' (out +:+ text +:+ NL)
      end
  end.

Section Flush.
(** The name under which the previous version of a file is kept. *)
Variable backup_name : filesystem -> string -> string.

(** Modelled from the spec: [util.safe_create_with_backup(path, 'w', 0o644)]
    is called by the flush but [util] is not among the sources.  Per the
    spec, before the file is overwritten a backup copy of the existing
    file is created; the call returns the opened, empty file and the
    backup.  File modes are not part of the model. *)
Definition safe_create_with_backup (fs : filesystem) (path : string)
    : filesystem * option string :=
  match fs !! path with
  | Some old =>
      let b := backup_name fs path in
      (<[path := ""]> (<[b := old]> fs), Some b)
  | None => (<[path := ""]> fs, None)
  end.

(** [update_config_file(force)]: the outcome and the file system after
    the call.  Iterating over [None] raises [TypeError]. *)
Definition update_config_file (fs : filesystem) (self : OpenVpn)
    (force : bool) : outcome bool * filesystem :=
  if negb force && negb (server_config_modified self) then
    (Return false self, fs)
  else
    let cpath := get_config_file_path in
    let '(fs, backup) := safe_create_with_backup fs cpath in
    match server_config_data self with
    | None => (Raised TypeError self, fs)
    | Some data =>
        match write_lines data "" with
        | (Some e, out) => (Raised e self, <[cpath := out]> fs)
        | (None, out) =>
            (Return true (mkOpenVpn (server_config_data self) false),
             <[cpath := out]> fs)
        end
    end.

(** Loading the file into a fresh object and flushing it at once with
    [force=True]. *)
Definition load_and_flush (fs : filesystem) : outcome bool * filesystem :=
  let self := mkOpenVpn None false in
  match load_config_file_lines fs with
  | Raise e => (Raised e self, fs)
  | Ok lines => update_config_file fs (mkOpenVpn (Some lines) false) true
  end.

(** [configure_crl(crl_path)]: [crl_path] is passed on as [values], and
    [remove] is [crl_path is None]; an exception of the first call ends the
    method before the flush. *)
Definition configure_crl (fs : filesystem) (self : OpenVpn)
    (crl_path : option string) : outcome bool * filesystem :=
  let values := match crl_path with Some p => VStr p | None => VNone end in
  match set_config_value fs self "crl-verify" values
          (bool_decide (crl_path = None)) with
  | Raised e self' => (Raised e self', fs)
  | Return _ self' => update_config_file fs self' false
  end.

(** The directives that [configure_server] sets, in the order of its calls. *)
Definition server_settings : list (string * string) :=
  [("port", "1194"); ("proto", "udp"); ("cipher", "AES-256-CBC");
   ("dh", "dh2048.pem"); ("ca", "ca.crt"); ("cert", "server.crt");
   ("key", "server.key")].

(** Calls [set_config_value(cmd, value)] one after the other; the first
    exception ends the sequence. *)
Fixpoint set_each (fs : filesystem) (self : OpenVpn)
    (settings : list (string * string)) : outcome unit :=
  match settings with
  | [] => Return tt self
  | (name, value) :: settings' =>
      match set_config_value fs self name (VStr value) false with
      | Raised e self' => Raised e self'
      | Return _ self' => set_each fs self' settings'
      end
  end.

(** [configure_server()] *)
Definition configure_server (fs : filesystem) (self : OpenVpn)
    : outcome bool * filesystem :=
  match set_each fs self server_settings with
  | Raised e self' => (Raised e self', fs)
  | Return _ self' => update_config_file fs self' false
  end.
End Flush.

End OpenVpn.

(** ** Example documents *)

Module Examples.
Import PyStr.

(** A file system whose only file is the configuration file. *)
Definition conf (content : string) : filesystem :=
  {[ OpenVpn.get_config_file_path := content ]}.

(** An object that has not loaded its file yet. *)
Definition fresh : OpenVpn := mkOpenVpn None false.

Definition dot_bak (fs : filesystem) (path : string) : string :=
  path +:+ ".bak".

Definition active (i : nat) (raw name value : string) : ConfigLine :=
  mkConfigLine (Some i) (Some raw) (Some CONFIG_LINE_CMD) (Some name) value None.

Definition disabled (i : nat) (raw name value : string) : ConfigLine :=
  mkConfigLine (Some i) (Some raw) (Some CONFIG_LINE_CMD_COMMENT) (Some name)
    value None.

(** A file that has the seven settings of [configure_server], and a second
    port. *)
Definition server_conf : string :=
  "port 1194" +:+ NL +:+ "port 1195" +:+ NL +:+ "proto udp" +:+ NL
  +:+ "cipher AES-256-CBC" +:+ NL +:+ "dh dh2048.pem" +:+ NL
  +:+ "ca ca.crt" +:+ NL +:+ "cert server.crt" +:+ NL
  +:+ "key server.key" +:+ NL.
End Examples.

(** ** Vocabulary of the statements *)

(** The lines a call for the directive [name] looks at: the directives,
    active or disabled, named [name]. *)
Definition concerns (name : string) (cfg : ConfigLine) : bool :=
  (OpenVpn.is_type CONFIG_LINE_CMD cfg
   || OpenVpn.is_type CONFIG_LINE_CMD_COMMENT cfg)
  && bool_decide (cmd cfg = Some name).

(** [cfg'] is [cfg], or [cfg] is a line of the directive and [cfg'] is the
    same line switched on or off. *)
Definition retagged (name : string) (cfg cfg' : ConfigLine) : Prop :=
  cfg' = cfg
  ∨ (concerns name cfg = true
     ∧ (cfg' = set_ltype CONFIG_LINE_CMD cfg
        ∨ cfg' = set_ltype CONFIG_LINE_CMD_COMMENT cfg)).

(** A line that can be written: its text is not [None]. *)
Definition has_text (cl : ConfigLine) : Prop := is_Some (ConfigLine.raw cl).

(** The text of a document: the text of each line followed by a newline. *)
Fixpoint text_of (data : list ConfigLine) : string :=
  match data with
  | [] => ""
  | cl :: data' =>
      default "" (ConfigLine.raw cl) +:+ PyStr.NL +:+ text_of data'
  end.

(** A line that is kept as it stands: it ends with a newline, has no other
    white space around it, and is classified blank or comment. *)
Definition plain_line (l : string) : Prop :=
  PyStr.strip l +:+ PyStr.NL = l
  ∧ ∃ cl, ConfigLine.build l 0 = Ok cl
          ∧ (ltype cl = Some CONFIG_LINE_BLANK
             ∨ ltype cl = Some CONFIG_LINE_COMMENT).

(** All the characters of [s] are in the class [p]. *)
Fixpoint all_chars (p : ascii → bool) (s : string) : bool :=
  match s with
  | EmptyString => true
  | String c s' => p c && all_chars p s'
  end.

(** The group [n] is among the closed groups [g]. *)
Definition has_group (n : nat) (g : Re.spans) : Prop := is_Some (Re.span_of n g).

(** Whenever the continuation [k] succeeds from groups that satisfy [I], its
    answer satisfies [P]. *)
Definition answers (I P : Re.spans → Prop) (k : Re.cont) : Prop :=
  ∀ pos s g g', I g → k pos s g = Some g' → P g'.

(** What a call without [remove] makes of a line: a line of the directive
    is active when its value is among [values] and disabled when it is not;
    any other line is kept. *)
Definition set_line (name : string) (values : list string) (cfg : ConfigLine)
    : ConfigLine :=
  if concerns name cfg then
    if bool_decide (params cfg ∈ values) then set_ltype CONFIG_LINE_CMD cfg
    else set_ltype CONFIG_LINE_CMD_COMMENT cfg
  else cfg.

(** A line that a call with [remove] is to switch off: a line of the
    directive whose value is among [values], or any line of the directive
    when no value is given. *)
Definition to_remove (name : string) (values : list string) (cfg : ConfigLine)
    : bool :=
  concerns name cfg
  && (bool_decide (params cfg ∈ values) || bool_decide (values = [])).

(** What a call with [remove] makes of a line. *)
Definition remove_line (name : string) (values : list string) (cfg : ConfigLine)
    : ConfigLine :=
  if to_remove name values cfg then set_ltype CONFIG_LINE_CMD_COMMENT cfg
  else cfg.

(** A line that a call without [remove] switches on: a disabled line of the
    directive with a requested value. *)
Definition promoted (name : string) (values : list string) (cfg : ConfigLine)
    : bool :=
  concerns name cfg && OpenVpn.is_type CONFIG_LINE_CMD_COMMENT cfg
  && bool_decide (params cfg ∈ values).

(** A line that a call with [remove] switches off. *)
Definition removed (name : string) (values : list string) (cfg : ConfigLine)
    : bool :=
  to_remove name values cfg && OpenVpn.is_type CONFIG_LINE_CMD cfg.

(** What a call makes of a line. *)
Definition line_after (c : OpenVpn.call) (cfg : ConfigLine) : ConfigLine :=
  let '(name, values, remove) := c in
  if remove then remove_line name (OpenVpn.normalize values) cfg
  else set_line name (OpenVpn.normalize values) cfg.

(** The lines after the calls of [configure_server], when all return. *)
Definition server_lines (data : list ConfigLine) : list ConfigLine :=
  foldl (λ d s, map (set_line s.1 [s.2]) d) data OpenVpn.server_settings.

(** The lines and the mark after the calls [set_config_value(cmd, value)]
    for [settings], when all return. *)
Definition after_settings (settings : list (string * string))
    (st : list ConfigLine * bool) : list ConfigLine * bool :=
  foldl (λ st s, (map (set_line s.1 [s.2]) st.1,
                  existsb (promoted s.1 [s.2]) st.1)) st settings.

(** The line [cfg] holds the directive [name] with the value [v], active or
    disabled. *)
Definition holds (name v : string) (cfg : ConfigLine) : Prop :=
  concerns name cfg = true ∧ params cfg = v.

(** The directive pattern after the optional [;]:
    [\s*([a-zA-Z0-9\-_]+)\s+(.+?)(\s*(#|;).+)?$]. *)
Definition cmd_re_tail : Re.regex :=
  Re.Seq (Re.Star PyStr.is_space)
    (Re.Seq (Re.Group 2 (Re.Plus Re.token_char))
       (Re.Seq (Re.Plus PyStr.is_space)
          (Re.Seq (Re.Group 3 (Re.PlusLazy Re.dot))
             (Re.Seq
                (Re.Opt
                   (Re.Group 4
                      (Re.Seq (Re.Star PyStr.is_space)
                         (Re.Seq (Re.Group 5 (Re.Alt (Re.Chr "#") (Re.Chr ";")))
                            (Re.Plus Re.dot)))))
                Re.Eol)))).

(** The end of the directive pattern: [(\s*(#|;).+)?$]. *)
Definition cmd_re_comment : Re.regex :=
  Re.Seq
    (Re.Opt
       (Re.Group 4
          (Re.Seq (Re.Star PyStr.is_space)
             (Re.Seq (Re.Group 5 (Re.Alt (Re.Chr "#") (Re.Chr ";")))
                (Re.Plus Re.dot)))))
    Re.Eol.

(** The directive pattern from the value on: [(.+?)(\s*(#|;).+)?$]. *)
Definition cmd_re_value : Re.regex :=
  Re.Seq (Re.Group 3 (Re.PlusLazy Re.dot)) cmd_re_comment.

(** The first character of a string, if any, is not in the class [p]. *)
Definition head_not (p : ascii → bool) (s : string) : Prop :=
  match s with
  | EmptyString => True
  | String c _ => p c = false
  end.

(** A character of a plain value: any character but a newline and the two
    comment signs. *)
Definition value_char (c : ascii) : bool :=
  Re.dot c && negb (Ascii.eqb c "#") && negb (Ascii.eqb c ";").

(** The group numbers of a pattern. *)
Fixpoint groups_in (r : Re.regex) : list nat :=
  match r with
  | Re.Seq r1 r2 | Re.Alt r1 r2 => groups_in r1 ++ groups_in r2
  | Re.Opt r1 => groups_in r1
  | Re.Group n r1 => n :: groups_in r1
  | _ => []
  end.

Ltac case_if :=
  match goal with
  | |- context [if ?b then _ else _] => destruct b eqn:?
  end.

(** ** The first loop only re-tags the lines of the directive *)

(** Blank lines, comments and the directives with another name are not
    among the lines of the directive. *)
Lemma concerns_false name cfg :
  ltype cfg = Some CONFIG_LINE_BLANK ∨ ltype cfg = Some CONFIG_LINE_COMMENT
  ∨ cmd cfg ≠ Some name →
  concerns name cfg = false.
Proof.
  unfold concerns, OpenVpn.is_type. intros [-> | [-> | Hc]]; [done | done |].
  rewrite (bool_decide_eq_false_2 (cmd cfg = Some name)) by done.
  apply andb_false_r.
Qed.

Section ScanFacts.
Import OpenVpn.
Variable name : string.
Local Abbreviation concerns := (concerns name).
Local Abbreviation retagged := (retagged name).

Lemma concerns_set_ltype t cfg :
  t = CONFIG_LINE_CMD ∨ t = CONFIG_LINE_CMD_COMMENT →
  concerns cfg = true → concerns (set_ltype t cfg) = true.
Proof.
  unfold concerns, is_type. intros [-> | ->] H; simpl;
    apply andb_true_iff in H as [_ H]; by rewrite H.
Qed.

Lemma retagged_concerns cfg cfg' :
  retagged cfg cfg' → concerns cfg' = concerns cfg.
Proof.
  intros [-> | [Hc [-> | ->]]]; [done | |]; rewrite Hc;
    apply concerns_set_ltype; auto.
Qed.

Lemma scan_line_skip values remove i cfg st :
  concerns cfg = false → scan_line name values remove i cfg st = (cfg, st).
Proof.
  unfold concerns, scan_line. intros H.
  destruct (is_type CONFIG_LINE_CMD cfg || is_type CONFIG_LINE_CMD_COMMENT cfg);
    simpl in *; [by rewrite H | done].
Qed.

Lemma scan_line_retagged values remove i cfg st :
  retagged cfg (scan_line name values remove i cfg st).1.
Proof.
  destruct (concerns cfg) eqn:Hc.
  - unfold scan_line.
    repeat (match goal with
            | |- context [if ?b then _ else _] => destruct b
            end; simpl);
      solve [by left | right; split; [done | by (left + right)]].
  - rewrite scan_line_skip; [by left | done].
Qed.

Lemma scan_retagged values remove data : ∀ i st,
  Forall2 retagged data (scan name values remove i data st).1.
Proof.
  induction data as [| cfg data IH]; intros i st; simpl; [constructor |].
  pose proof (scan_line_retagged values remove i cfg st) as H1.
  destruct (scan_line name values remove i cfg st) as [cfg' st'].
  specialize (IH (S i) st').
  destruct (scan name values remove (S i) data st') as [rest st''].
  by constructor.
Qed.

Lemma retagged_length data data' :
  Forall2 retagged data data' → length data' = length data.
Proof. intros H. symmetry. by eapply Forall2_length. Qed.

Lemma retagged_lookup data data' i cfg :
  Forall2 retagged data data' → data !! i = Some cfg →
  concerns cfg = false → data' !! i = Some cfg.
Proof.
  intros H Hi Hc.
  destruct (Forall2_lookup_l _ _ _ _ _ H Hi) as (cfg' & Hi' & [-> | [Hc' _]]);
    [done | congruence].
Qed.

Lemma retagged_filter data data' :
  Forall2 retagged data data' →
  filter (λ cfg, concerns cfg = false) data'
  = filter (λ cfg, concerns cfg = false) data.
Proof.
  induction 1 as [| cfg cfg' data data' Hr _ IH]; [done |].
  rewrite !filter_cons, IH.
  pose proof (retagged_concerns _ _ Hr) as Hc.
  destruct Hr as [-> | [Hc' _]]; [done |].
  rewrite !decide_False; [done | congruence | congruence].
Qed.

(** The second loop only adds lines of the directive. *)
Lemma insert_at_filter {A} (P : A → Prop) `{∀ x, Decision (P x)} i x (l : list A) :
  ¬ P x → filter P (list_insert_at i x l) = filter P l.
Proof.
  intros Hx. unfold list_insert_at.
  rewrite filter_app, filter_cons, decide_False by done.
  by rewrite <-filter_app, take_drop.
Qed.

Lemma insert_at_length {A} i x (l : list A) :
  length (list_insert_at i x l) = S (length l).
Proof.
  unfold list_insert_at. rewrite length_app. simpl.
  rewrite length_take, length_drop. lia.
Qed.

Lemma add_missing_frame value last vs values : ∀ i ctr data changed,
  let r := add_missing value name last vs i values ctr data changed in
  filter (λ cfg, concerns cfg = false) r.2.1
  = filter (λ cfg, concerns cfg = false) data
  ∧ (length data ≤ length r.2.1)%nat.
Proof.
  induction values as [| cval values IH]; intros i ctr data changed; simpl;
    [done |].
  destruct (vs !! i) as [[] |]; simpl; [apply IH | | done].
  destruct value as [v |]; simpl; [| done].
  edestruct IH as [-> Hlen]. split.
  - apply insert_at_filter. unfold concerns, is_type. simpl.
    rewrite bool_decide_eq_true_2 by done. done.
  - etrans; [| exact Hlen]. rewrite insert_at_length. lia.
Qed.

(** Without a binding of [value] the second loop inserts nothing. *)
Lemma add_missing_unbound last vs values : ∀ i ctr data changed,
  (add_missing None name last vs i values ctr data changed).2 = (data, changed).
Proof.
  induction values as [| cval values IH]; intros i ctr data changed; simpl;
    [done |].
  by destruct (vs !! i) as [[] |]; simpl.
Qed.
End ScanFacts.

(** ** What one call does to the document *)

Section CallFacts.
Import OpenVpn.

(** The line a turn of the first loop leaves depends on the line alone. *)
Lemma scan_line_fst name values remove i cfg st j st' :
  (scan_line name values remove i cfg st).1
  = (scan_line name values remove j cfg st').1.
Proof. unfold scan_line. by repeat (case_if; simpl). Qed.

Lemma scan_lookup name values remove data : ∀ i st j cfg,
  data !! j = Some cfg →
  (scan name values remove i data st).1 !! j
  = Some (scan_line name values remove 0 cfg st).1.
Proof.
  induction data as [| c data IH]; intros i st j cfg Hj; [done |]. simpl.
  destruct (scan_line name values remove i c st) as [c' st1] eqn:E1.
  destruct (scan name values remove (S i) data st1) as [rest st2] eqn:E2.
  destruct j as [| j]; simpl in *.
  - inversion Hj; subst.
    by rewrite (scan_line_fst _ _ _ 0 cfg st i st), E1.
  - pose proof (IH (S i) st1 j cfg Hj) as H. rewrite E2 in H. simpl in H.
    rewrite H. f_equal. apply scan_line_fst.
Qed.

Lemma scan_line_changed_mono name values remove i cfg st :
  file_changed st = true →
  file_changed (scan_line name values remove i cfg st).2 = true.
Proof. unfold scan_line. intros H. by repeat (case_if; simpl). Qed.

Lemma scan_changed_mono name values remove data : ∀ i st,
  file_changed st = true →
  file_changed (scan name values remove i data st).2 = true.
Proof.
  induction data as [| c data IH]; intros i st H; [done |]. simpl.
  pose proof (scan_line_changed_mono name values remove i c st H) as H1.
  destruct (scan_line name values remove i c st) as [c' st1].
  specialize (IH (S i) st1 H1).
  by destruct (scan name values remove (S i) data st1).
Qed.

Lemma scan_changed name values remove data : ∀ i st j cfg,
  data !! j = Some cfg →
  (∀ i' st', file_changed (scan_line name values remove i' cfg st').2 = true) →
  file_changed (scan name values remove i data st).2 = true.
Proof.
  induction data as [| c data IH]; intros i st j cfg Hj Hc; [done |]. simpl.
  destruct (scan_line name values remove i c st) as [c' st1] eqn:E1.
  destruct j as [| j]; simpl in *.
  - inversion Hj; subst.
    pose proof (scan_changed_mono name values remove data (S i) st1) as H.
    destruct (scan name values remove (S i) data st1). simpl. apply H.
    specialize (Hc i st). by rewrite E1 in Hc.
  - specialize (IH (S i) st1 j cfg Hj Hc).
    by destruct (scan name values remove (S i) data st1).
Qed.

(** Removing an active line switches it off and reports the change, when
    its value is among those asked for or when no value is given. *)
Lemma scan_line_remove name values cfg i st :
  ltype cfg = Some CONFIG_LINE_CMD → cmd cfg = Some name →
  params cfg ∈ values ∨ values = [] →
  scan_line name values true i cfg st
  = (set_ltype CONFIG_LINE_CMD_COMMENT cfg, mkScan i true (values_set st)).
Proof.
  intros Ht Hc Hv. unfold scan_line, is_type. rewrite Ht, Hc.
  rewrite (bool_decide_eq_true_2 (Some CONFIG_LINE_CMD = Some CONFIG_LINE_CMD))
    by done.
  rewrite (bool_decide_eq_true_2 (Some name = Some name)) by done.
  destruct Hv as [Hv | ->].
  - by rewrite (bool_decide_eq_true_2 (params cfg ∈ values)) by done.
  - by rewrite (bool_decide_eq_false_2 (params cfg ∈ []))
      by apply not_elem_of_nil.
Qed.

(** The document after a call, whatever [value] is bound to: the lines
    that do not belong to the directive are the same, in the same order,
    and there are at least as many lines as before. *)
Lemma set_config_value_where_frame value fs self name values remove data :
  ensure_loaded fs self = Ok data →
  ∃ data',
    server_config_data
      (final_state (set_config_value_where value fs self name values remove))
    = Some data'
    ∧ filter (λ cfg, concerns name cfg = false) data'
      = filter (λ cfg, concerns name cfg = false) data
    ∧ (length data ≤ length data')%nat.
Proof.
  intros Hload. unfold set_config_value_where. rewrite Hload.
  pose proof (scan_retagged name (normalize values) remove data 0
                (mkScan 0 false (replicate (length (normalize values)) false)))
    as Hscan.
  destruct (scan _ _ _ _ _ _) as [data1 st]. simpl in Hscan.
  pose proof (retagged_filter _ _ _ Hscan) as Hf.
  pose proof (retagged_length _ _ _ Hscan) as Hl.
  destruct remove.
  - exists data1. simpl. split_and!; [done | done | lia].
  - pose proof (add_missing_frame name value (last_cmd_idx st) (values_set st)
                  (normalize values) 0 0 data1 (file_changed st)) as [Hf2 Hl2].
    destruct (add_missing _ _ _ _ _ _ _ _ _) as [[e |] [data2 changed]];
      simpl in *; exists data2; (split_and!; [done | congruence | lia]).
Qed.

(** The document after a call of the method as it is: every line is where
    it was, and is the same line or the same line switched on or off. *)
Lemma set_config_value_retags fs self name values remove data :
  ensure_loaded fs self = Ok data →
  ∃ data',
    server_config_data
      (final_state (set_config_value fs self name values remove))
    = Some data'
    ∧ Forall2 (retagged name) data data'.
Proof.
  intros Hload. unfold set_config_value, set_config_value_where.
  rewrite Hload.
  pose proof (scan_retagged name (normalize values) remove data 0
                (mkScan 0 false (replicate (length (normalize values)) false)))
    as Hscan.
  destruct (scan _ _ _ _ _ _) as [data1 st]. simpl in Hscan.
  destruct remove; [by exists data1 |].
  pose proof (add_missing_unbound name (last_cmd_idx st) (values_set st)
                (normalize values) 0 0 data1 (file_changed st)) as Hadd.
  destruct (add_missing _ _ _ _ _ _ _ _ _) as [[e |] [data2 changed]];
    simpl in *; inversion Hadd; subst; by exists data1.
Qed.

Lemma line_count_step fs self name values remove :
  (line_count self
   ≤ line_count (final_state (set_config_value fs self name values remove)))%nat.
Proof.
  destruct (ensure_loaded fs self) as [data | e] eqn:Hload.
  - destruct (set_config_value_where_frame None fs self name values remove data
                Hload) as (data' & Hd & _ & Hlen).
    unfold line_count at 2. unfold set_config_value. rewrite Hd.
    unfold line_count. unfold ensure_loaded in Hload.
    destruct (server_config_data self); [| lia]. by inversion Hload; subst.
  - unfold set_config_value, set_config_value_where. by rewrite Hload.
Qed.

Lemma run_calls_app fs cs : ∀ self cs',
  run_calls fs self (cs ++ cs') = run_calls fs (run_calls fs self cs) cs'.
Proof.
  induction cs as [| [[name values] remove] cs IH]; intros self cs'; [done |].
  simpl. apply IH.
Qed.

Lemma line_count_run fs cs : ∀ self,
  (line_count self ≤ line_count (run_calls fs self cs))%nat.
Proof.
  induction cs as [| [[name values] remove] cs IH]; intros self; [done |].
  simpl. etrans; [apply line_count_step | apply IH].
Qed.
End CallFacts.

(** ** The classifier *)

Section ClassifierFacts.
Import PyStr Re.

Lemma token_char_plain c :
  token_char c = true →
  is_space c = false ∧ Ascii.eqb "#" c = false ∧ Ascii.eqb ";" c = false.
Proof. destruct c as [[] [] [] [] [] [] [] []]; by vm_compute. Qed.

Lemma rstrip_no_space s :
  all_chars (λ c, negb (is_space c)) s = true → rstrip s = s.
Proof.
  induction s as [| c s IH]; simpl; [done |].
  intros [Hc Hs]%andb_true_iff. rewrite (IH Hs).
  apply negb_true_iff in Hc. rewrite Hc. by destruct s.
Qed.

Lemma all_chars_impl (p q : ascii → bool) s :
  (∀ c, p c = true → q c = true) →
  all_chars p s = true → all_chars q s = true.
Proof.
  intros Hpq. induction s as [| c s IH]; simpl; [done |].
  intros [Hc Hs]%andb_true_iff. by rewrite (Hpq c Hc), (IH Hs).
Qed.

Lemma strip_token w : all_chars token_char w = true → strip w = w.
Proof.
  intros Hw. unfold strip.
  assert (lstrip w = w) as ->.
  { destruct w as [| c w]; [done |]. simpl in *.
    apply andb_true_iff in Hw as [Hc _].
    by destruct (token_char_plain c Hc) as [-> _]. }
  apply rstrip_no_space. eapply all_chars_impl; [| done].
  intros c Hc. by destruct (token_char_plain c Hc) as [-> _].
Qed.

(** After a run of token characters that reaches the end of the line, no
    white space can follow, wherever the run is cut. *)
Lemma star_token_no_space (k : cont) w : ∀ pos g,
  all_chars token_char w = true →
  (∀ pos' s' g', all_chars token_char s' = true → k pos' s' g' = None) →
  star_greedy token_char k pos w g = None.
Proof.
  induction w as [| c w IH]; intros pos g Hw Hk; simpl; [by apply Hk |].
  pose proof Hw as Hw'. simpl in Hw'.
  apply andb_true_iff in Hw' as [Hc Hrest].
  rewrite Hc, (IH _ _ Hrest Hk). by apply Hk.
Qed.

(** A line made of a single token, such as a directive without a value,
    matches none of the three patterns. *)
Lemma single_token_no_match w :
  w ≠ "" → all_chars token_char w = true →
  re_match ConfigLine.cmt_re w = None
  ∧ re_match ConfigLine.cmd_cmt_re w = None
  ∧ re_match ConfigLine.cmd_re w = None.
Proof.
  intros Hne Hw. destruct w as [| c w]; [done |].
  pose proof Hw as Hw'. simpl in Hw'.
  apply andb_true_iff in Hw' as [Hc Hrest].
  destruct (token_char_plain c Hc) as (Hsp & Hhash & Hsemi).
  unfold re_match, ConfigLine.cmt_re, ConfigLine.cmd_cmt_re, ConfigLine.cmd_re.
  cbn [run star_greedy Nat.eqb]. unfold one. cbn [star_greedy].
  rewrite !Hsp, !Hhash, !Hsemi. cbn [run star_greedy Nat.eqb]. rewrite Hc.
  rewrite star_token_no_space; [done | done |].
  intros pos' [| c' s'] g' Hs'; [done |]. simpl in Hs'.
  apply andb_true_iff in Hs' as [Hc' _].
  by destruct (token_char_plain c' Hc') as [-> _].
Qed.

(** [\s*;.*] matches every line that starts with [;]. *)
Lemma star_dot_accepts s : ∀ pos g,
  ∃ g', star_greedy dot (λ _ _ g, Some g) pos s g = Some g'.
Proof.
  induction s as [| c s IH]; intros pos g; simpl; [eauto |].
  destruct (dot c); [| eauto].
  destruct (IH (S pos) g) as [g' ->]. eauto.
Qed.

Lemma semicolon_line_matches s :
  ∃ m, re_match ConfigLine.cmd_cmt_re (String ";" s) = Some m.
Proof.
  unfold re_match, ConfigLine.cmd_cmt_re. simpl. unfold one. simpl.
  destruct (star_dot_accepts s 1 []) as [g' ->]. eauto.
Qed.

(** A line that starts with [;] and is not a well-formed directive is an
    ordinary comment. *)
Lemma build_semicolon_comment line i s :
  strip line = String ";" s →
  re_match ConfigLine.cmd_re (strip line) = None →
  ConfigLine.build line i
  = Ok (mkConfigLine (Some i) (Some (strip line)) (Some CONFIG_LINE_COMMENT)
          None "" (Some "")).
Proof.
  intros Hs Hno. unfold ConfigLine.build. rewrite Hno, Hs.
  destruct (semicolon_line_matches s) as [m ->].
  assert (String.length (strip (String ";" s)) ≠ 0) as Hlen.
  { unfold strip. simpl. by destruct (rstrip s). }
  apply Nat.eqb_neq in Hlen. rewrite Hlen.
  by assert (re_match ConfigLine.cmt_re (String ";" s) = None) as ->.
Qed.

(** Every success of the matcher is a success of its continuation, and a
    property of the groups that survives the closing of further groups
    holds for the continuation whenever it holds at the start. *)
Section Through.
Variables I P : spans → Prop.
Hypothesis I_cons : ∀ n sp g, I g → I ((n, sp) :: g).
Local Abbreviation answers := (answers I P).

Lemma one_through p k : answers k → answers (one p k).
Proof.
  intros Hk pos [| c s] g g' Hg; unfold one; [done |].
  destruct (p c); [by apply Hk | done].
Qed.

Lemma star_greedy_through p k : answers k → answers (star_greedy p k).
Proof.
  intros Hk pos s. revert pos.
  induction s as [| c s IH]; intros pos g g' Hg; simpl; [by apply Hk |].
  destruct (p c); [| by apply Hk].
  destruct (star_greedy p k (S pos) s g) as [r |] eqn:E.
  - intros [= <-]. by eapply IH.
  - by apply Hk.
Qed.

Lemma star_lazy_through p k : answers k → answers (star_lazy p k).
Proof.
  intros Hk pos s. revert pos.
  induction s as [| c s IH]; intros pos g g' Hg; simpl.
  - destruct (k pos "" g) as [r |] eqn:E; [| done].
    intros [= <-]. by eapply Hk.
  - destruct (k pos (String c s) g) as [r |] eqn:E.
    + intros [= <-]. by eapply Hk.
    + destruct (p c); [by apply IH | done].
Qed.

Lemma run_through r : ∀ k, answers k → answers (run r k).
Proof.
  induction r as [| | c | p | r1 IH1 r2 IH2 | r1 IH1 r2 IH2 | r1 IH1
                  | p | p | p | n r1 IH1];
    intros k Hk; simpl.
  - intros pos s g g' Hg. destruct (Nat.eqb pos 0); [by apply Hk | done].
  - intros pos s g g' Hg. destruct s as [| c [| c' s]]; [by apply Hk | | done].
    destruct (Ascii.eqb c (ch 10)); [by apply Hk | done].
  - by apply one_through.
  - by apply one_through.
  - by apply IH1, IH2.
  - intros pos s g g' Hg.
    destruct (run r1 k pos s g) as [x |] eqn:E.
    + intros [= <-]. by eapply IH1.
    + by apply IH2.
  - intros pos s g g' Hg.
    destruct (run r1 k pos s g) as [x |] eqn:E.
    + intros [= <-]. by eapply IH1.
    + by apply Hk.
  - by apply star_greedy_through.
  - by apply one_through, star_greedy_through.
  - by apply one_through, star_lazy_through.
  - intros pos s g g' Hg. apply IH1; [| done].
    intros pos' s' g1 g1' Hg1. apply Hk. by apply I_cons.
Qed.
End Through.

Lemma has_group_cons n m sp g : has_group n g → has_group n ((m, sp) :: g).
Proof. unfold has_group. simpl. by destruct (Nat.eqb n m). Qed.

Lemma has_group_here n sp g : has_group n ((n, sp) :: g).
Proof. unfold has_group. simpl. by rewrite Nat.eqb_refl. Qed.

(** What follows a closed group cannot lose it. *)
Lemma group_kept n r pos s g g' :
  has_group n g → run r (λ _ _ g, Some g) pos s g = Some g' → has_group n g'.
Proof.
  apply (run_through (has_group n) (has_group n)).
  - intros m sp g0. apply has_group_cons.
  - by intros ? ? g0 g0' ? [= <-].
Qed.

(** A group that has been closed is part of every match of what follows. *)
Lemma group_closed n r rest pos s g g' :
  run (Group n r ⨾ rest) (λ _ _ g, Some g) pos s g = Some g' → has_group n g'.
Proof.
  cbn [run].
  apply (run_through (λ _, True) (has_group n)); [done | | done].
  intros pos' s' g1 g1' _ H.
  eapply group_kept; [apply has_group_here | exact H].
Qed.

Lemma after_prefix (P : spans → Prop) r rest :
  (∀ pos s g g', run rest (λ _ _ g, Some g) pos s g = Some g' → P g') →
  ∀ pos s g g', run (r ⨾ rest) (λ _ _ g, Some g) pos s g = Some g' → P g'.
Proof.
  intros H pos s g g'. cbn [run].
  apply (run_through (λ _, True) P); [done | | done].
  intros pos' s' g1 g1' _. apply H.
Qed.

(** A match of the directive pattern always has its groups 2 and 3. *)
Lemma cmd_re_groups s m :
  re_match ConfigLine.cmd_re s = Some m →
  is_Some (group m 2) ∧ is_Some (group m 3).
Proof.
  unfold re_match.
  destruct (run ConfigLine.cmd_re _ 0 s []) as [g |] eqn:E; [| done].
  intros [= <-]. unfold group. simpl.
  assert (has_group 2 g ∧ has_group 3 g) as [[[a b] ->] [[a' b'] ->]]; [| eauto].
  unfold ConfigLine.cmd_re in E. split.
  - revert E. do 4 apply after_prefix. apply group_closed.
  - revert E. do 6 apply after_prefix. apply group_closed.
Qed.

(** [build] raises only in the one case that it does not provide for: a
    line that is not blank and matches none of the patterns. *)
Lemma build_raises_only line i e :
  ConfigLine.build line i = Raise e →
  e = AttributeError
  ∧ strip line ≠ ""
  ∧ re_match ConfigLine.cmt_re (strip line) = None
  ∧ re_match ConfigLine.cmd_cmt_re (strip line) = None
  ∧ re_match ConfigLine.cmd_re (strip line) = None.
Proof.
  unfold ConfigLine.build.
  destruct (Nat.eqb _ 0) eqn:Hlen; [done |].
  destruct (re_match ConfigLine.cmt_re _); [done |].
  destruct (re_match ConfigLine.cmd_re _) as [m |] eqn:Hm.
  - destruct (cmd_re_groups _ _ Hm) as [[g2 ->] [g3 ->]]. done.
  - destruct (re_match ConfigLine.cmd_cmt_re _); [done |].
    intros [= <-]. split_and!; try done.
    intros Hs. rewrite Hs in Hlen. done.
Qed.
End ClassifierFacts.

(** ** Loading and flushing *)

Section FlushFacts.
Import PyStr OpenVpn.

Lemma append_cons a s t : String a s +:+ t = String a (s +:+ t).
Proof. reflexivity. Qed.

Lemma append_nil_r s : s +:+ "" = s.
Proof. induction s as [| a s IH]; [done |]. by rewrite append_cons, IH. Qed.

Lemma append_assoc s t u : (s +:+ t) +:+ u = s +:+ (t +:+ u).
Proof. induction s as [| a s IH]; [done |]. by rewrite !append_cons, IH. Qed.

Lemma write_lines_text data : ∀ out,
  Forall has_text data →
  write_lines data out = (None, out +:+ text_of data).
Proof.
  induction data as [| cl data IH]; intros out Hall; simpl.
  - by rewrite append_nil_r.
  - inversion Hall as [| ? ? [text Ht] Hrest]; subst. rewrite Ht. simpl.
    rewrite IH by done. by rewrite !append_assoc.
Qed.

(** The lines of a file make up the file. *)
Lemma readlines_concat s : foldr String.append "" (readlines s) = s.
Proof.
  induction s as [| c s IH]; [done |]. simpl.
  destruct (Ascii.eqb c (ch 10)); simpl.
  - by rewrite IH.
  - destruct (readlines s) as [| l ls]; simpl in *.
    + by rewrite <-IH.
    + by rewrite append_cons, IH.
Qed.

Lemma build_plain l i :
  plain_line l →
  ∃ cl, ConfigLine.build l i = Ok cl ∧ ConfigLine.raw cl = Some (strip l).
Proof.
  intros [_ (cl & Hb & Ht)]. revert Hb. unfold ConfigLine.build.
  repeat case_match; intros; simplify_eq/=; try by eauto.
  all: destruct Ht as [Ht | Ht]; by repeat case_match.
Qed.

Lemma build_lines_plain ls : ∀ i,
  Forall plain_line ls →
  ∃ data, build_lines i ls = Ok data
          ∧ Forall has_text data
          ∧ text_of data = foldr String.append "" ls.
Proof.
  induction ls as [| l ls IH]; intros i Hall; simpl.
  - by exists [].
  - inversion Hall as [| ? ? Hl Hrest]; subst.
    destruct (build_plain l i Hl) as (cl & -> & Hraw).
    destruct (IH (S i) Hrest) as (data & -> & Hsome & Htext).
    exists (cl :: data).
    split_and!; [done | constructor; [by (unfold has_text; rewrite Hraw) | done] |].
    simpl. rewrite Hraw, Htext. simpl.
    rewrite <-append_assoc. by destruct Hl as [-> _].
Qed.

(** The lines that [build] makes, and the lines after a call, can be
    written. *)
Lemma build_has_text line i cl :
  ConfigLine.build line i = Ok cl → has_text cl.
Proof.
  unfold ConfigLine.build, has_text.
  repeat case_match; intros; simplify_eq; unfold ConfigLine.raw; simpl;
    repeat case_match; eauto.
Qed.

Lemma build_lines_have_text ls : ∀ i data,
  build_lines i ls = Ok data → Forall has_text data.
Proof.
  induction ls as [| l ls IH]; intros i data; simpl.
  - intros [= <-]. constructor.
  - destruct (ConfigLine.build l i) as [cl | e] eqn:Hb; [| done].
    destruct (build_lines (S i) ls) as [rest | e] eqn:Hrest; [| done].
    intros [= <-]. constructor; [by eapply build_has_text | by eapply IH].
Qed.

Lemma load_has_text fs data :
  load_config_file_lines fs = Ok data → Forall has_text data.
Proof.
  unfold load_config_file_lines.
  destruct (fs !! get_config_file_path); [apply build_lines_have_text |].
  intros [= <-]. constructor.
Qed.

Lemma retagged_has_text name cfg cfg' :
  retagged name cfg cfg' → has_text cfg → has_text cfg'.
Proof.
  intros [-> | [_ [-> | ->]]]; [done | |]; intros _;
    unfold has_text, ConfigLine.raw; simpl; eauto.
Qed.

Lemma set_config_value_has_text fs self name values remove data :
  ensure_loaded fs self = Ok data → Forall has_text data →
  ∃ data',
    server_config_data
      (final_state (set_config_value fs self name values remove))
    = Some data'
    ∧ Forall has_text data'.
Proof.
  intros Hload Hall.
  destruct (set_config_value_retags fs self name values remove data Hload)
    as (data' & Hd & Hr).
  exists data'. split; [done |].
  clear Hd Hload. induction Hr as [| cfg cfg' data data' H1 _ IH];
    [constructor |].
  inversion Hall; subst. constructor; [by eapply retagged_has_text | by apply IH].
Qed.
(** A flush that goes ahead writes the text of the document, keeps the
    previous version under the backup name and resets the mark. *)
Lemma update_config_file_flushes backup_name fs self force data :
  force = true ∨ server_config_modified self = true →
  server_config_data self = Some data →
  Forall has_text data →
  ∃ fs',
    update_config_file backup_name fs self force
    = (Return true (mkOpenVpn (Some data) false), fs')
    ∧ fs' !! get_config_file_path = Some (text_of data)
    ∧ (∀ old,
         fs !! get_config_file_path = Some old →
         backup_name fs get_config_file_path ≠ get_config_file_path →
         fs' !! backup_name fs get_config_file_path = Some old).
Proof.
  intros Hgo Hd Hall. unfold update_config_file.
  assert (negb force && negb (server_config_modified self) = false) as ->.
  { destruct Hgo as [-> | ->]; [done | by destruct force]. }
  unfold safe_create_with_backup. rewrite Hd.
  destruct (fs !! get_config_file_path) as [old |] eqn:Hold;
    rewrite write_lines_text by done; simpl;
    (eexists; split_and!; [done | by rewrite lookup_insert_eq |]).
  - intros old' [= <-] Hne.
    rewrite !lookup_insert_ne by done. by rewrite lookup_insert_eq.
  - by intros old' [=].
Qed.
End FlushFacts.

(** ** The values found by the first loop, and the second loop *)

Section ValueFacts.
Import OpenVpn.

Lemma index_lookup x values : ∀ j,
  index x values = Some j → values !! j = Some x.
Proof.
  induction values as [| v values IH]; intros j; simpl; [done |].
  case_bool_decide as Hv; [by intros [= <-]; subst |].
  destruct (index x values) as [j' |]; simpl; [| done].
  intros [= <-]. by apply IH.
Qed.

Lemma index_elem_of x values :
  x ∈ values → ∃ j, index x values = Some j.
Proof.
  induction values as [| v values IH]; simpl; [by intros ?%elem_of_nil |].
  intros [-> | Hin]%elem_of_cons.
  - rewrite bool_decide_eq_true_2 by done. eauto.
  - case_bool_decide; [eauto |]. destruct (IH Hin) as [j ->]. simpl. eauto.
Qed.

Lemma mark_length value_idx vs : length (mark value_idx vs) = length vs.
Proof. destruct value_idx; simpl; [apply length_insert | done]. Qed.

Lemma mark_true value_idx vs j :
  mark value_idx vs !! j = Some true →
  vs !! j = Some true ∨ value_idx = Some j.
Proof.
  destruct value_idx as [i |]; simpl; [| by left].
  destruct (decide (i = j)) as [-> | Hne]; [by right |].
  rewrite list_lookup_insert_ne by done. by left.
Qed.

(** A value is ticked in [values_set] only for a line of the directive
    that holds it. *)
Lemma scan_line_values_set name values i cfg st j :
  values_set (scan_line name values false i cfg st).2 !! j = Some true →
  values_set st !! j = Some true
  ∨ (concerns name cfg = true ∧ values !! j = Some (params cfg)).
Proof.
  destruct (concerns name cfg) eqn:Hc;
    [| rewrite scan_line_skip by done; by left].
  unfold scan_line. repeat (case_if; simpl); try by left.
  all: intros [H | H]%mark_true; [by left | right; split; [done |]].
  all: by apply index_lookup.
Qed.

Lemma scan_line_values_set_length name values remove i cfg st :
  length (values_set (scan_line name values remove i cfg st).2)
  = length (values_set st).
Proof.
  unfold scan_line. repeat (case_if; simpl); by rewrite ?mark_length.
Qed.

Lemma scan_values_set name values data : ∀ i st j,
  values_set (scan name values false i data st).2 !! j = Some true →
  values_set st !! j = Some true
  ∨ ∃ cfg, cfg ∈ data ∧ concerns name cfg = true
           ∧ values !! j = Some (params cfg).
Proof.
  induction data as [| c data IH]; intros i st j; simpl; [by left |].
  pose proof (scan_line_values_set name values i c st j) as H1.
  destruct (scan_line name values false i c st) as [c' st1].
  specialize (IH (S i) st1 j).
  destruct (scan name values false (S i) data st1) as [rest st2]. simpl in *.
  intros [H | (cfg & Hin & Hc & Hv)]%IH.
  - destruct (H1 H) as [? | [? ?]]; [by left |].
    right. exists c. split_and!; [by left | done | done].
  - right. exists cfg. split_and!; [by right | done | done].
Qed.

Lemma scan_values_set_length name values remove data : ∀ i st,
  length (values_set (scan name values remove i data st).2)
  = length (values_set st).
Proof.
  induction data as [| c data IH]; intros i st; simpl; [done |].
  pose proof (scan_line_values_set_length name values remove i c st) as H1.
  destruct (scan_line name values remove i c st) as [c' st1].
  specialize (IH (S i) st1).
  destruct (scan name values remove (S i) data st1). simpl in *. congruence.
Qed.

(** The second loop of the method as it is: it raises [NameError] at the
    first value that is not ticked, and returns at once when all are. *)
Lemma add_missing_unbound_raises name last vs values : ∀ i j ctr data changed,
  (length vs = i + length values)%nat →
  (j < length values)%nat → vs !! (i + j)%nat = Some false →
  (add_missing None name last vs i values ctr data changed).1
  = Some (NameError "value").
Proof.
  induction values as [| cval values IH]; intros i j ctr data changed Hlen Hj Hf;
    simpl in *; [lia |].
  destruct (vs !! i) as [[] |] eqn:Hi; simpl; [| done |].
  - destruct j as [| j]; [rewrite Nat.add_0_r in Hf; congruence |].
    apply (IH (S i) j); [lia | lia |].
    by replace (S i + j)%nat with (i + S j)%nat by lia.
  - apply lookup_ge_None in Hi. lia.
Qed.

Lemma add_missing_returns value name last vs values : ∀ i ctr data changed,
  (add_missing value name last vs i values ctr data changed).1 = None →
  value = None →
  add_missing value name last vs i values ctr data changed
  = (None, (data, changed)).
Proof.
  intros i ctr data changed H ->. revert i H.
  induction values as [| cval values IH]; intros i; simpl; [done |].
  destruct (vs !! i) as [[] |]; simpl; [apply IH | done | done].
Qed.

(** When a requested value is on no line of the directive, the call does
    not return: it raises [NameError], having only switched lines of the
    directive on or off. *)
Lemma set_config_value_unbound fs self name values data v :
  ensure_loaded fs self = Ok data →
  v ∈ normalize values →
  (∀ cfg, cfg ∈ data → concerns name cfg = true → params cfg ≠ v) →
  ∃ data',
    set_config_value fs self name values false
    = Raised (NameError "value")
        (mkOpenVpn (Some data') (server_config_modified self))
    ∧ Forall2 (retagged name) data data'.
Proof.
  intros Hload Hv Hno.
  destruct (set_config_value_retags fs self name values false data Hload)
    as (data' & Hd & Hr).
  exists data'. split; [| done]. revert Hd.
  unfold set_config_value, set_config_value_where. rewrite Hload.
  set (st0 := mkScan 0 false (replicate (length (normalize values)) false)).
  pose proof (scan_values_set name (normalize values) data 0 st0) as Hset.
  pose proof (scan_values_set_length name (normalize values) false data 0 st0)
    as Hlen.
  destruct (scan _ _ _ _ _ _) as [data1 st]. simpl in *.
  rewrite length_replicate in Hlen.
  destruct (index_elem_of _ _ Hv) as [j Hj].
  pose proof (index_lookup _ _ _ Hj) as Hjv.
  assert (values_set st !! j = Some false) as Hfalse.
  { destruct (values_set st !! j) as [[] |] eqn:E; [| done |].
    - destruct (Hset j E) as [H | (cfg & Hin & Hc & Hp)].
      + apply lookup_replicate in H as [? _]. done.
      + exfalso. apply (Hno cfg Hin Hc). congruence.
    - apply lookup_ge_None in E. apply lookup_lt_Some in Hjv. lia. }
  pose proof (add_missing_unbound_raises name (last_cmd_idx st) (values_set st)
                (normalize values) 0 j 0 data1 (file_changed st) Hlen
                (lookup_lt_Some _ _ _ Hjv) Hfalse) as Hraise.
  pose proof (add_missing_unbound name (last_cmd_idx st) (values_set st)
                (normalize values) 0 0 data1 (file_changed st)) as Hkeep.
  destruct (add_missing _ _ _ _ _ _ _ _ _) as [e [data2 changed]].
  simpl in *. subst e. inversion Hkeep; subst. intros [= <-]. done.
Qed.

(** A line that the first loop has left is left as it is by a second
    turn, which ticks the same value and reports no change. *)
Lemma scan_line_again name values i cfg st st2 :
  let r := scan_line name values false i cfg st in
  let r2 := scan_line name values false i r.1 st2 in
  last_cmd_idx st = last_cmd_idx st2 →
  values_set st = values_set st2 →
  r2.1 = r.1 ∧ last_cmd_idx r2.2 = last_cmd_idx r.2
  ∧ values_set r2.2 = values_set r.2
  ∧ file_changed r2.2 = file_changed st2.
Proof.
  intros r r2 Hl Hv. subst r r2.
  destruct cfg as [ix rw [[] |] cm pa co];
    unfold scan_line, is_type, set_ltype; simpl; try done;
    destruct (bool_decide (cm = Some name)) eqn:Hcm; simpl;
    rewrite ?Hcm; simpl; try done;
    destruct (bool_decide (pa ∈ values)) eqn:Hpa; simpl;
    rewrite ?Hcm, ?Hpa; simpl; rewrite ?Hv; done.
Qed.

Lemma scan_again name values data : ∀ i st st2,
  let r := scan name values false i data st in
  let r2 := scan name values false i r.1 st2 in
  last_cmd_idx st = last_cmd_idx st2 →
  values_set st = values_set st2 →
  r2.1 = r.1 ∧ last_cmd_idx r2.2 = last_cmd_idx r.2
  ∧ values_set r2.2 = values_set r.2
  ∧ file_changed r2.2 = file_changed st2.
Proof.
  induction data as [| c data IH]; intros i st st2; simpl; [done |].
  intros Hl Hv.
  pose proof (scan_line_again name values i c st st2 Hl Hv) as H1.
  destruct (scan_line name values false i c st) as [c1 st1]. simpl in *.
  pose proof (IH (S i) st1) as H2.
  destruct (scan name values false (S i) data st1) as [rest1 st1']. simpl in *.
  destruct (scan_line name values false i c1 st2) as [c2 st2']. simpl in *.
  destruct H1 as (-> & Hl1 & Hv1 & Hc1).
  specialize (H2 st2' (eq_sym Hl1) (eq_sym Hv1)).
  destruct (scan name values false (S i) rest1 st2') as [rest2 st2''].
  simpl in *. destruct H2 as (-> & ? & ? & ?). split_and!; congruence.
Qed.

(** Idempotence of the calls that return: when a call without [remove]
    returns, the same call made again returns [False] and leaves the lines
    as they are. *)
Lemma set_config_value_again fs self name values changed self1 :
  set_config_value fs self name values false = Return changed self1 →
  set_config_value fs self1 name values false
  = Return false (mkOpenVpn (server_config_data self1) false).
Proof.
  unfold set_config_value, set_config_value_where.
  destruct (ensure_loaded fs self) as [data | e]; [| done].
  set (st0 := mkScan 0 false (replicate (length (normalize values)) false)).
  pose proof (scan_again name (normalize values) data 0 st0 st0 eq_refl eq_refl)
    as Hagain.
  destruct (scan name (normalize values) false 0 data st0) as [data1 st1].
  simpl in Hagain.
  pose proof (add_missing_returns None name (last_cmd_idx st1) (values_set st1)
                (normalize values) 0 0 data1 (file_changed st1)) as Hret.
  destruct (add_missing None name (last_cmd_idx st1) _ _ _ _ _ _)
    as [[e |] [data2 ch]] eqn:Hadd; [done |].
  specialize (Hret eq_refl eq_refl). inversion Hret; subst.
  intros [= <- <-]. unfold ensure_loaded. simpl.
  destruct (scan name (normalize values) false 0 data1 st0) as [data3 st3].
  simpl in Hagain. destruct Hagain as (-> & -> & -> & ->).
  pose proof (add_missing_unbound name (last_cmd_idx st1) (values_set st1)
                (normalize values) 0 0 data1 false) as Hkeep.
  assert ((add_missing None name (last_cmd_idx st1) (values_set st1) 0
             (normalize values) 0 data1 false).1 = None) as Hnone.
  { clear -Hadd. revert Hadd. generalize 0 at 1 3.
    induction (normalize values) as [| cval vs IH]; intros i; simpl; [done |].
    destruct (values_set st1 !! i) as [[] |]; simpl; [apply IH | done | done]. }
  destruct (add_missing None name (last_cmd_idx st1) (values_set st1) 0
              (normalize values) 0 data1 false) as [e [data4 ch4]].
  simpl in *. subst e. by inversion Hkeep; subst.
Qed.
End ValueFacts.

(** ** Properties of the patcher *)

Section Claims.
Import PyStr OpenVpn Examples.

(** C7. Frame property: after a call of [set_config_value] for [name],
    whether it returns or raises, every line that is blank, a comment, or a
    directive with another name is exactly the line it was, at the position
    it had, and these lines follow each other in the order they had. *)
Theorem set_config_value_frame fs self name values remove data :
  ensure_loaded fs self = Ok data →
  ∃ data',
    server_config_data
      (final_state (set_config_value fs self name values remove))
    = Some data'
    ∧ (∀ i cfg, data !! i = Some cfg → concerns name cfg = false →
                data' !! i = Some cfg)
    ∧ filter (λ cfg, concerns name cfg = false) data'
      = filter (λ cfg, concerns name cfg = false) data.
Proof.
  intros Hload.
  destruct (set_config_value_retags fs self name values remove data Hload)
    as (data' & Hd & Hr).
  exists data'. split_and!; [done | | by apply retagged_filter].
  intros i cfg Hi Hc. by eapply retagged_lookup.
Qed.

Lemma set_config_value_frame_witness :
  ∃ data',
    server_config_data
      (final_state
         (set_config_value
            (conf ("# vpn" +:+ NL +:+ "proto udp" +:+ NL +:+ "port 1195" +:+ NL))
            fresh "port" (VStr "1195") true))
    = Some data'
    ∧ data' !! 1 = Some (active 1 "proto udp" "proto" "udp").
Proof.
  destruct (set_config_value_frame
              (conf ("# vpn" +:+ NL +:+ "proto udp" +:+ NL +:+ "port 1195" +:+ NL))
              fresh "port" (VStr "1195") true
              [mkConfigLine (Some 0) (Some "# vpn") (Some CONFIG_LINE_COMMENT)
                 None "" (Some "");
               active 1 "proto udp" "proto" "udp";
               active 2 "port 1195" "port" "1195"])
    as (data' & Hd & Hkeep & _); [by vm_compute |].
  exists data'. split; [exact Hd |].
  apply Hkeep; by vm_compute.
Defined.

(** C5. No line is ever deleted: along any sequence of calls of
    [set_config_value], with or without [remove], the number of lines of
    the document never decreases; and removing a directive, by the value
    that its active line holds or without naming a value, leaves that line
    in place, switched off, with its value and trailing comment. *)
Theorem set_config_value_keeps_lines :
  (∀ fs self cs cs',
     (line_count (run_calls fs self cs)
      ≤ line_count (run_calls fs self (cs ++ cs')))%nat)
  ∧ (∀ fs self name values data i cfg,
       ensure_loaded fs self = Ok data →
       data !! i = Some cfg →
       ltype cfg = Some CONFIG_LINE_CMD → cmd cfg = Some name →
       params cfg ∈ normalize values ∨ normalize values = [] →
       ∃ data',
         set_config_value fs self name values true
         = Return true (mkOpenVpn (Some data') true)
         ∧ length data' = length data
         ∧ data' !! i
           = Some (mkConfigLine (idx cfg) (_raw cfg)
                     (Some CONFIG_LINE_CMD_COMMENT) (cmd cfg) (params cfg)
                     (comment cfg))).
Proof.
  split.
  - intros fs self cs cs'. rewrite run_calls_app. apply line_count_run.
  - intros fs self name values data i cfg Hload Hi Ht Hc Hv.
    unfold set_config_value, set_config_value_where. rewrite Hload.
    set (st0 := mkScan 0 false (replicate (length (normalize values)) false)).
    pose proof (scan_retagged name (normalize values) true data 0 st0) as Hr.
    pose proof (scan_lookup name (normalize values) true data 0 st0 i cfg Hi)
      as Hl.
    pose proof (scan_changed name (normalize values) true data 0 st0 i cfg Hi)
      as Hch.
    destruct (scan _ _ _ _ _ _) as [data1 st]. simpl in *.
    rewrite Hch; [| intros i' st'; by rewrite scan_line_remove].
    exists data1. split_and!; [done | by eapply retagged_length |].
    by rewrite Hl, scan_line_remove.
Qed.

Lemma set_config_value_keeps_lines_witness :
  ∃ data',
    set_config_value (conf ("port 1194 # vpn" +:+ NL)) fresh "port"
      (VStr "1194") true
    = Return true (mkOpenVpn (Some data') true)
    ∧ length data' = 1
    ∧ data' !! 0
      = Some (mkConfigLine (Some 0) (Some "port 1194 # vpn")
                (Some CONFIG_LINE_CMD_COMMENT) (Some "port") "1194"
                (Some " # vpn")).
Proof.
  apply (proj2 set_config_value_keeps_lines
           (conf ("port 1194 # vpn" +:+ NL)) fresh "port" (VStr "1194")
           [mkConfigLine (Some 0) (Some "port 1194 # vpn")
              (Some CONFIG_LINE_CMD) (Some "port") "1194" (Some " # vpn")]
           0
           (mkConfigLine (Some 0) (Some "port 1194 # vpn")
              (Some CONFIG_LINE_CMD) (Some "port") "1194" (Some " # vpn")));
    try by vm_compute.
  left. apply list_elem_of_here.
Defined.

(** C9. A missing configuration file is not an error: when no file exists
    at the configuration path, loading returns the empty list of lines. *)
Theorem load_missing_file (fs : filesystem) :
  fs !! get_config_file_path = None →
  load_config_file_lines fs = Ok [].
Proof. intros H. unfold load_config_file_lines. by rewrite H. Qed.

Lemma load_missing_file_witness :
  load_config_file_lines (∅ : filesystem) = Ok [].
Proof. apply load_missing_file. apply lookup_empty. Defined.

(** C10. Flush gating and reset: with [force=False] on a document that is
    not marked as modified, [update_config_file] writes nothing and returns
    [False]; otherwise the file is written with the text of the document,
    the previous version is kept as the backup, the mark is reset and the
    call returns [True]. *)
Theorem update_config_file_gate backup_name fs self force :
  (force = false → server_config_modified self = false →
   update_config_file backup_name fs self force = (Return false self, fs))
  ∧ (force = true ∨ server_config_modified self = true →
     ∀ data,
       server_config_data self = Some data →
       Forall has_text data →
       ∃ fs',
         update_config_file backup_name fs self force
         = (Return true (mkOpenVpn (Some data) false), fs')
         ∧ fs' !! get_config_file_path = Some (text_of data)
         ∧ (∀ old,
              fs !! get_config_file_path = Some old →
              backup_name fs get_config_file_path ≠ get_config_file_path →
              fs' !! backup_name fs get_config_file_path = Some old)).
Proof.
  split.
  - intros -> Hm. unfold update_config_file. by rewrite Hm.
  - intros Hgo data Hd Hall. by apply update_config_file_flushes.
Qed.

Lemma update_config_file_gate_witness :
  update_config_file dot_bak (conf ("# vpn" +:+ NL))
    (mkOpenVpn (Some [active 0 "port 1194" "port" "1194"]) false) false
  = (Return false (mkOpenVpn (Some [active 0 "port 1194" "port" "1194"]) false),
     conf ("# vpn" +:+ NL))
  ∧ ∃ fs',
      update_config_file dot_bak (conf ("# vpn" +:+ NL))
        (mkOpenVpn (Some [active 0 "port 1194" "port" "1194"]) true) false
      = (Return true (mkOpenVpn (Some [active 0 "port 1194" "port" "1194"]) false),
         fs')
      ∧ fs' !! get_config_file_path = Some ("port 1194 None" +:+ NL)
      ∧ fs' !! (get_config_file_path +:+ ".bak") = Some ("# vpn" +:+ NL).
Proof.
  split.
  - by apply (update_config_file_gate dot_bak).
  - destruct (proj2 (update_config_file_gate dot_bak (conf ("# vpn" +:+ NL))
                       (mkOpenVpn (Some [active 0 "port 1194" "port" "1194"]) true)
                       false)
                (or_intror eq_refl) _ eq_refl) as (fs' & Hr & Hf & Hb).
    { constructor; [by eexists | constructor]. }
    exists fs'. split_and!; [exact Hr | exact Hf |].
    apply Hb; by vm_compute.
Defined.

(** C4, as stated, fails: a comment line that is indented comes back
    without its indentation, and a directive line comes back rebuilt from
    its parts. *)
Lemma roundtrip_not_identical :
  (load_and_flush dot_bak (conf ("  # vpn" +:+ NL))).2 !! get_config_file_path
  = Some ("# vpn" +:+ NL)
  ∧ (load_and_flush dot_bak (conf ("port 1194 # vpn" +:+ NL))).2
      !! get_config_file_path
    = Some ("port 1194  # vpn" +:+ NL)
  ∧ ¬ (∀ content,
         (load_and_flush dot_bak (conf content)).2 !! get_config_file_path
         = Some content).
Proof.
  split_and!; [by vm_compute | by vm_compute |].
  intros H. specialize (H ("  # vpn" +:+ NL)). by vm_compute in H.
Qed.

(** C4, amended. Round trip of the text that is kept verbatim: for a
    configuration file in which every line ends with a newline, has no
    other white space before or after its text, and is classified blank or
    comment, loading it and flushing at once with [force=True] succeeds and
    writes back the same bytes.  Every line that [build] makes is rendered by
    the rule of [raw]: a blank line or a comment as its stored text, which is
    the stripped text of the line; a directive that has a trailing comment
    as its name, a space, its value, a space and the trailing comment as it
    was captured, behind a [;] when the directive is disabled. *)
Theorem roundtrip_plain_lines :
  (∀ backup_name (fs : filesystem) content,
     fs !! get_config_file_path = Some content →
     Forall plain_line (readlines content) →
     ∃ self' fs',
       load_and_flush backup_name fs = (Return true self', fs')
       ∧ fs' !! get_config_file_path = Some content)
  ∧ (∀ line i cl,
       ConfigLine.build line i = Ok cl →
       match ltype cl with
       | Some CONFIG_LINE_BLANK | Some CONFIG_LINE_COMMENT =>
           ConfigLine.raw cl = Some (strip line)
       | Some CONFIG_LINE_CMD =>
           ∀ name c, cmd cl = Some name → comment cl = Some c →
             ConfigLine.raw cl
             = Some (name +:+ " " +:+ params cl +:+ " " +:+ c)
       | Some CONFIG_LINE_CMD_COMMENT =>
           ∀ name c, cmd cl = Some name → comment cl = Some c →
             ConfigLine.raw cl
             = Some (";" +:+ name +:+ " " +:+ params cl +:+ " " +:+ c)
       | None => False
       end).
Proof.
  split.
  - intros backup_name fs content Hfile Hplain.
    unfold load_and_flush, load_config_file_lines. rewrite Hfile.
    destruct (build_lines_plain _ 0 Hplain) as (data & -> & Hsome & Htext).
    destruct (update_config_file_flushes backup_name fs
                (mkOpenVpn (Some data) false) true data
                (or_introl eq_refl) eq_refl Hsome) as (fs' & -> & Hf & _).
    eexists _, fs'. split; [done |].
    by rewrite Hf, Htext, readlines_concat.
  - intros line i cl. unfold ConfigLine.build.
    repeat case_match; intros Hbuild; simplify_eq; simpl; try done;
      intros name c Hname Hc; simplify_eq;
      unfold ConfigLine.raw; simpl; by rewrite Hc.
Qed.

Lemma roundtrip_plain_lines_witness :
  (∃ self' fs',
     load_and_flush dot_bak
       (conf ("# vpn server" +:+ NL +:+ NL +:+ ";" +:+ NL +:+ "; off" +:+ NL))
     = (Return true self', fs')
     ∧ fs' !! get_config_file_path
       = Some ("# vpn server" +:+ NL +:+ NL +:+ ";" +:+ NL +:+ "; off" +:+ NL))
  ∧ ConfigLine.build (";port 1194 # vpn" +:+ NL) 0
    = Ok (mkConfigLine (Some 0) (Some ";port 1194 # vpn")
            (Some CONFIG_LINE_CMD_COMMENT) (Some "port") "1194"
            (Some " # vpn"))
  ∧ ConfigLine.raw
      (mkConfigLine (Some 0) (Some ";port 1194 # vpn")
         (Some CONFIG_LINE_CMD_COMMENT) (Some "port") "1194" (Some " # vpn"))
    = Some ";port 1194  # vpn".
Proof.
  split; [| split].
  - apply (proj1 roundtrip_plain_lines); [by vm_compute |].
    repeat (apply Forall_cons; split); [.. | by apply Forall_nil];
      (split; [by vm_compute |]; eexists; split; [lazy; reflexivity |];
       by (left + right)).
  - by vm_compute.
  - apply (proj2 roundtrip_plain_lines (";port 1194 # vpn" +:+ NL) 0
             (mkConfigLine (Some 0) (Some ";port 1194 # vpn")
                (Some CONFIG_LINE_CMD_COMMENT) (Some "port") "1194"
                (Some " # vpn")) ltac:(by vm_compute) "port" " # vpn");
      reflexivity.
Defined.

(** Scenario C: a disabled line with the value asked for is switched on, no
    line is added and the change is reported.  Scenario D: an active line
    with the value asked for is left alone and no change is reported. *)
Example scenario_C :
  set_config_value (conf (";push route" +:+ NL)) fresh "push" (VStr "route") false
  = Return true (mkOpenVpn (Some [active 0 ";push route" "push" "route"]) true).
Proof. by vm_compute. Qed.

Example scenario_D :
  set_config_value (conf ("cipher AES-256-CBC" +:+ NL)) fresh "cipher"
    (VStr "AES-256-CBC") false
  = Return false
      (mkOpenVpn (Some [active 0 "cipher AES-256-CBC" "cipher" "AES-256-CBC"])
         false).
Proof. by vm_compute. Qed.

(** C1. The first of two identical calls does not return [True] when a
    value is missing: for every document and every call without [remove]
    that asks for a value found on no line of the directive, active or
    disabled, the call raises [NameError] for the name [value]; no line is
    added and the modification mark is not set. *)
Theorem set_config_value_missing_value_raises fs self name values data v :
  ensure_loaded fs self = Ok data →
  v ∈ normalize values →
  (∀ cfg, cfg ∈ data → concerns name cfg = true → params cfg ≠ v) →
  ∃ data',
    set_config_value fs self name values false
    = Raised (NameError "value")
        (mkOpenVpn (Some data') (server_config_modified self))
    ∧ length data' = length data.
Proof.
  intros Hload Hv Hno.
  destruct (set_config_value_unbound fs self name values data v Hload Hv Hno)
    as (data' & Hr & Hretag).
  exists data'. split; [done | by eapply retagged_length].
Qed.

Lemma set_config_value_missing_value_raises_witness :
  ∃ data',
    set_config_value (conf ("proto udp" +:+ NL)) fresh "port" (VStr "1194") false
    = Raised (NameError "value") (mkOpenVpn (Some data') false)
    ∧ length data' = 1.
Proof.
  apply (set_config_value_missing_value_raises
           (conf ("proto udp" +:+ NL)) fresh "port" (VStr "1194")
           [active 0 "proto udp" "proto" "udp"] "1194").
  - by vm_compute.
  - apply list_elem_of_here.
  - intros cfg ->%list_elem_of_singleton. by vm_compute.
Defined.

(** C2. Scenario A as the code runs it: on an empty document, and on a
    missing file, setting [port] to [1194] raises [NameError]; the document
    stays empty.  With two values of which one is on a disabled line, that
    line is switched on and the other value gets no line. *)
Theorem set_config_value_inserts_nothing :
  set_config_value ∅ (mkOpenVpn (Some []) false) "port" (VStr "1194") false
  = Raised (NameError "value") (mkOpenVpn (Some []) false)
  ∧ set_config_value ∅ fresh "port" (VStr "1194") false
    = Raised (NameError "value") (mkOpenVpn (Some []) false)
  ∧ set_config_value (conf (";push a" +:+ NL)) fresh "push"
      (VList ["a"; "b"]) false
    = Raised (NameError "value")
        (mkOpenVpn (Some [active 0 ";push a" "push" "a"]) false).
Proof. split_and!; by vm_compute. Qed.

(** C3. A stale active value is switched off without the change being
    reported: with [port 1194] and [port 1195] both active, setting [port]
    to [1194] turns the second line into a disabled one and returns
    [False], the document not being marked as modified.  In scenario B, a
    document with [port 1195] alone, the line is switched off and the call
    raises [NameError] instead of adding [port 1194]. *)
Theorem set_config_value_stale_not_reported :
  set_config_value (conf ("port 1194" +:+ NL +:+ "port 1195" +:+ NL)) fresh
    "port" (VStr "1194") false
  = Return false
      (mkOpenVpn (Some [active 0 "port 1194" "port" "1194";
                        disabled 1 "port 1195" "port" "1195"]) false)
  ∧ set_config_value (conf ("port 1195" +:+ NL)) fresh "port" (VStr "1194") false
    = Raised (NameError "value")
        (mkOpenVpn (Some [disabled 0 "port 1195" "port" "1195"]) false).
Proof. split; by vm_compute. Qed.

(** C6. The modification mark is overwritten, not accumulated: on a
    document with [;port 1194], a first call that sets [port] to [1194]
    returns [True] and marks the document; the same call made again returns
    [False] and clears the mark, so that a flush without [force] that
    follows writes nothing. *)
Theorem set_config_value_clears_mark :
  ∃ self1 self2,
    set_config_value (conf (";port 1194" +:+ NL)) fresh "port" (VStr "1194") false
    = Return true self1
    ∧ server_config_modified self1 = true
    ∧ set_config_value (conf (";port 1194" +:+ NL)) self1 "port"
        (VStr "1194") false
      = Return false self2
    ∧ server_config_modified self2 = false
    ∧ server_config_data self2 = Some [active 0 ";port 1194" "port" "1194"]
    ∧ update_config_file dot_bak (conf (";port 1194" +:+ NL)) self2 false
      = (Return false self2, conf (";port 1194" +:+ NL)).
Proof. do 2 eexists. split_and!; by vm_compute. Qed.

(** C8. [build] is not total: a line that, once stripped, consists of a
    single token, such as a directive that takes no value, is neither blank
    nor a comment and matches no pattern, and [build] raises
    [AttributeError] on it. *)
Theorem build_single_token_raises line i :
  strip line ≠ "" → all_chars Re.token_char (strip line) = true →
  ConfigLine.build line i = Raise AttributeError.
Proof.
  intros Hne Hw. unfold ConfigLine.build.
  rewrite !(strip_token (strip line)) by done.
  destruct (single_token_no_match _ Hne Hw) as (-> & -> & ->).
  by destruct (strip line).
Qed.

Lemma build_single_token_raises_witness :
  ConfigLine.build ("persist-key" +:+ NL) 7 = Raise AttributeError.
Proof. apply build_single_token_raises; by vm_compute. Defined.

End Claims.

(** * Further properties of the patcher *)

(** ** The two loops in closed form *)

Section LineFacts.
Import OpenVpn.

Lemma set_ltype_same t cfg : ltype cfg = Some t → set_ltype t cfg = cfg.
Proof. destruct cfg; simpl; by intros ->. Qed.

Lemma length_zero_nil (values : list string) :
  Nat.eqb (length values) 0 = bool_decide (values = []).
Proof. by destruct values. Qed.

(** The line that a turn of the first loop leaves. *)
Lemma scan_line_set name values i cfg st :
  (scan_line name values false i cfg st).1 = set_line name values cfg.
Proof.
  unfold set_line, concerns.
  destruct cfg as [ix rw [[] |] cm pa co]; unfold scan_line, is_type, set_ltype;
    simpl; try done;
    destruct (bool_decide (cm = Some name)); simpl; try done;
    by destruct (bool_decide (pa ∈ values)).
Qed.

Lemma scan_line_remove_line name values i cfg st :
  (scan_line name values true i cfg st).1 = remove_line name values cfg.
Proof.
  unfold remove_line, to_remove, concerns. rewrite <-length_zero_nil.
  destruct cfg as [ix rw [[] |] cm pa co]; unfold scan_line, is_type, set_ltype;
    simpl; try done;
    destruct (bool_decide (cm = Some name)); simpl; try done;
    by destruct (bool_decide (pa ∈ values)), (Nat.eqb (length values) 0).
Qed.

Lemma scan_lines name values remove data : ∀ i st,
  (scan name values remove i data st).1
  = map (if remove then remove_line name values else set_line name values) data.
Proof.
  induction data as [| c data IH]; intros i st; [done |]. simpl.
  pose proof (scan_line_set name values i c st) as Hs.
  pose proof (scan_line_remove_line name values i c st) as Hr.
  destruct (scan_line name values remove i c st) as [c' st1] eqn:E.
  specialize (IH (S i) st1).
  destruct (scan name values remove (S i) data st1) as [rest st2].
  simpl in *. rewrite IH. f_equal.
  destruct remove; by rewrite E in *.
Qed.

Lemma scan_line_changed_set name values i cfg st :
  file_changed (scan_line name values false i cfg st).2
  = file_changed st || promoted name values cfg.
Proof.
  unfold promoted, concerns.
  destruct cfg as [ix rw [[] |] cm pa co]; unfold scan_line, is_type;
    simpl; rewrite ?orb_false_r; try done;
    destruct (bool_decide (cm = Some name)); simpl; rewrite ?orb_false_r;
    try done;
    destruct (bool_decide (pa ∈ values)); simpl;
    by rewrite ?orb_false_r, ?orb_true_r.
Qed.

Lemma scan_line_changed_remove name values i cfg st :
  file_changed (scan_line name values true i cfg st).2
  = file_changed st || removed name values cfg.
Proof.
  unfold removed, to_remove, concerns. rewrite <-length_zero_nil.
  destruct cfg as [ix rw [[] |] cm pa co]; unfold scan_line, is_type;
    simpl; rewrite ?orb_false_r; try done;
    destruct (bool_decide (cm = Some name)); simpl; rewrite ?orb_false_r;
    try done;
    destruct (bool_decide (pa ∈ values)), (Nat.eqb (length values) 0); simpl;
    by rewrite ?orb_false_r, ?orb_true_r.
Qed.

Lemma scan_file_changed name values remove data : ∀ i st,
  file_changed (scan name values remove i data st).2
  = file_changed st
    || existsb (if remove then removed name values else promoted name values)
         data.
Proof.
  induction data as [| c data IH]; intros i st; simpl; [by rewrite orb_false_r |].
  pose proof (scan_line_changed_set name values i c st) as Hs.
  pose proof (scan_line_changed_remove name values i c st) as Hr.
  destruct (scan_line name values remove i c st) as [c' st1] eqn:E.
  specialize (IH (S i) st1).
  destruct (scan name values remove (S i) data st1) as [rest st2].
  simpl in *. rewrite IH, orb_assoc. f_equal.
  destruct remove; by rewrite E in *.
Qed.
End LineFacts.

(** ** When a call returns and what it returns *)

Section OutcomeFacts.
Import OpenVpn.

Lemma index_lt x values j : index x values = Some j → (j < length values)%nat.
Proof. intros H%index_lookup. by eapply lookup_lt_Some. Qed.

Lemma index_nodup values : ∀ j x,
  NoDup values → values !! j = Some x → index x values = Some j.
Proof.
  induction values as [| v values IH]; intros j x Hnd Hj; [done |].
  apply NoDup_cons in Hnd as [Hv Hnd]. simpl.
  destruct j as [| j]; simpl in Hj.
  - inversion Hj; subst. by rewrite bool_decide_eq_true_2.
  - rewrite bool_decide_eq_false_2.
    + by rewrite (IH j x Hnd Hj).
    + intros ->. apply Hv. by eapply list_elem_of_lookup_2.
Qed.

Lemma nodup_index values :
  (∀ j x, values !! j = Some x → index x values = Some j) → NoDup values.
Proof.
  induction values as [| v values IH]; intros H; [constructor |].
  apply NoDup_cons. split.
  - intros [j Hj]%list_elem_of_lookup_1.
    specialize (H (S j) v Hj). simpl in H.
    by rewrite bool_decide_eq_true_2 in H.
  - apply IH. intros j x Hj. specialize (H (S j) x Hj). simpl in H.
    case_bool_decide; [done |].
    destruct (index x values); simpl in H; congruence.
Qed.

(** What a turn of the first loop ticks in [values_set]. *)
Lemma scan_line_ticked name values i cfg st j :
  length (values_set st) = length values →
  values_set (scan_line name values false i cfg st).2 !! j = Some true
  ↔ values_set st !! j = Some true
    ∨ (concerns name cfg = true ∧ index (params cfg) values = Some j).
Proof.
  intros Hlen. unfold concerns.
  destruct (bool_decide (params cfg ∈ values)) eqn:Hin.
  - apply bool_decide_eq_true in Hin.
    destruct (index_elem_of _ _ Hin) as [j' Hj'].
    pose proof (index_lt _ _ _ Hj') as Hlt. rewrite <-Hlen in Hlt.
    destruct cfg as [ix rw [[] |] cm pa co]; unfold scan_line, is_type;
      simpl in *; try (by intuition);
      destruct (bool_decide (cm = Some name)); simpl; try (by intuition);
      rewrite (bool_decide_eq_true_2 (pa ∈ values)) by done; simpl;
      rewrite Hj'; simpl;
      (destruct (decide (j' = j)) as [-> | Hne];
       [rewrite list_lookup_insert_eq by done; by intuition
       | rewrite list_lookup_insert_ne by done; intuition congruence]).
  - apply bool_decide_eq_false in Hin.
    assert (index (params cfg) values ≠ Some j) as Hno.
    { intros H%index_lookup. apply Hin. by eapply list_elem_of_lookup_2. }
    destruct cfg as [ix rw [[] |] cm pa co]; unfold scan_line, is_type;
      simpl in *; try (by intuition);
      destruct (bool_decide (cm = Some name)); simpl; try (by intuition);
      rewrite (bool_decide_eq_false_2 (pa ∈ values)) by done; simpl;
      by intuition.
Qed.

Lemma scan_ticked name values data : ∀ i st j,
  length (values_set st) = length values →
  values_set (scan name values false i data st).2 !! j = Some true
  ↔ values_set st !! j = Some true
    ∨ ∃ cfg, cfg ∈ data ∧ concerns name cfg = true
             ∧ index (params cfg) values = Some j.
Proof.
  induction data as [| c data IH]; intros i st j Hlen; simpl.
  - split; [by left |]. intros [H | (cfg & Hin & _)]; [done |].
    by apply elem_of_nil in Hin.
  - pose proof (scan_line_ticked name values i c st j Hlen) as H1.
    pose proof (scan_line_values_set_length name values false i c st) as Hl1.
    destruct (scan_line name values false i c st) as [c' st1]. simpl in *.
    specialize (IH (S i) st1 j). rewrite Hl1 in IH. specialize (IH Hlen).
    destruct (scan name values false (S i) data st1) as [rest st2]. simpl in *.
    rewrite IH, H1. split.
    + intros [[H | [Hc Hi]] | (cfg & Hin & Hc & Hi)]; [by left | |].
      * right. exists c. split_and!; [by left | done | done].
      * right. exists cfg. split_and!; [by right | done | done].
    + intros [H | (cfg & Hin & Hc & Hi)]; [by left; left |].
      apply elem_of_cons in Hin as [-> | Hin]; [by left; right |].
      right. by exists cfg.
Qed.

(** The second loop of the method as it is. *)
Lemma add_missing_unbound_ok name last vs values : ∀ i ctr data changed,
  (∀ j, (j < length values)%nat → vs !! (i + j)%nat = Some true) →
  add_missing None name last vs i values ctr data changed
  = (None, (data, changed)).
Proof.
  induction values as [| cval values IH]; intros i ctr data changed Hall;
    simpl; [done |].
  pose proof (Hall 0%nat ltac:(simpl; lia)) as H0.
  rewrite Nat.add_0_r in H0. rewrite H0. apply IH.
  intros j Hj. replace (S i + j)%nat with (i + S j)%nat by lia.
  apply Hall. simpl. lia.
Qed.

Lemma add_missing_unbound_all name last vs values : ∀ i ctr data changed,
  (add_missing None name last vs i values ctr data changed).1 = None →
  ∀ j, (j < length values)%nat → vs !! (i + j)%nat = Some true.
Proof.
  induction values as [| cval values IH]; intros i ctr data changed H j Hj;
    simpl in *; [lia |].
  destruct (vs !! i) as [[] |] eqn:Hi; simpl in H; [| done | done].
  destruct j as [| j]; [by rewrite Nat.add_0_r |].
  replace (i + S j)%nat with (S i + j)%nat by lia.
  eapply IH; [exact H | lia].
Qed.

Lemma add_missing_unbound_cases name last vs values : ∀ i ctr data changed,
  (length vs = i + length values)%nat →
  (add_missing None name last vs i values ctr data changed).1 = None
  ∨ (add_missing None name last vs i values ctr data changed).1
    = Some (NameError "value").
Proof.
  induction values as [| cval values IH]; intros i ctr data changed Hlen;
    simpl in *; [by left |].
  destruct (vs !! i) as [[] |] eqn:Hi; simpl; [| by right |].
  - apply IH. lia.
  - apply lookup_ge_None in Hi. lia.
Qed.

(** The first loop has ticked every value exactly when no value is listed
    twice and each is on a line of the directive. *)
Lemma all_ticked name values (data : list ConfigLine) (vs : list bool) :
  (∀ j, vs !! j = Some true
        ↔ ∃ cfg, cfg ∈ data ∧ concerns name cfg = true
                 ∧ index (params cfg) values = Some j) →
  (∀ j, (j < length values)%nat → vs !! j = Some true)
  ↔ NoDup values ∧ ∀ v, v ∈ values → ∃ cfg, cfg ∈ data ∧ holds name v cfg.
Proof.
  intros Hvs. split.
  - intros Hall. split.
    + apply nodup_index. intros j x Hj.
      destruct (proj1 (Hvs j) (Hall j (lookup_lt_Some _ _ _ Hj)))
        as (cfg & _ & _ & Hi).
      pose proof (index_lookup _ _ _ Hi). congruence.
    + intros v [j Hj]%list_elem_of_lookup_1.
      destruct (proj1 (Hvs j) (Hall j (lookup_lt_Some _ _ _ Hj)))
        as (cfg & Hin & Hc & Hi).
      exists cfg. split; [done |]. split; [done |].
      pose proof (index_lookup _ _ _ Hi). congruence.
  - intros [Hnd Hcov] j Hj.
    destruct (lookup_lt_is_Some_2 values j Hj) as [v Hv].
    destruct (Hcov v (list_elem_of_lookup_2 _ _ _ Hv)) as (cfg & Hin & Hc & Hp).
    apply Hvs. exists cfg. split_and!; [done | done |].
    rewrite Hp. by apply index_nodup.
Qed.
End OutcomeFacts.

(** ** Calls of [set_config_value] on a loaded document *)

Section More.
Import PyStr OpenVpn Examples.

(** The document after a call, whether the call returns or raises: every
    line is mapped on its own, by [remove_line] when [remove] is set and by
    [set_line] otherwise. *)
Lemma set_config_value_lines fs self name values remove data :
  ensure_loaded fs self = Ok data →
  server_config_data
    (final_state (set_config_value fs self name values remove))
  = Some (map (if remove then remove_line name (normalize values)
               else set_line name (normalize values)) data).
Proof.
  intros Hload. unfold set_config_value, set_config_value_where.
  rewrite Hload.
  set (st0 := mkScan 0 false (replicate (length (normalize values)) false)).
  pose proof (scan_lines name (normalize values) remove data 0 st0) as Hl.
  destruct (scan _ _ _ _ _ _) as [data1 st]. simpl in Hl. subst data1.
  destruct remove; [done |].
  pose proof (add_missing_unbound name (last_cmd_idx st) (values_set st)
                (normalize values) 0 0
                (map (set_line name (normalize values)) data) (file_changed st))
    as Hadd.
  destruct (add_missing _ _ _ _ _ _ _ _ _) as [[e |] [data2 changed]];
    simpl in *; by inversion Hadd.
Qed.

(** The values ticked by the first loop of a call without [remove]. *)
Lemma scan_ticked_from_start name values data j :
  values_set
    (scan name values false 0 data
       (mkScan 0 false (replicate (length values) false))).2 !! j = Some true
  ↔ ∃ cfg, cfg ∈ data ∧ concerns name cfg = true
           ∧ index (params cfg) values = Some j.
Proof.
  rewrite scan_ticked by (simpl; apply length_replicate). simpl. split.
  - intros [H | H]; [| done]. apply lookup_replicate in H as [? _]. done.
  - by right.
Qed.

(** A call without [remove] returns when no value is listed twice and each
    value is on a line of the directive, active or disabled.  It then leaves
    active exactly the lines of the directive with a listed value, and
    returns [True], marking the document, exactly when it has switched a
    disabled line on. *)
Lemma set_config_value_returns fs self name values data :
  ensure_loaded fs self = Ok data →
  NoDup (normalize values) →
  (∀ v, v ∈ normalize values → ∃ cfg, cfg ∈ data ∧ holds name v cfg) →
  set_config_value fs self name values false
  = Return (existsb (promoted name (normalize values)) data)
      (mkOpenVpn (Some (map (set_line name (normalize values)) data))
         (existsb (promoted name (normalize values)) data)).
Proof.
  intros Hload Hnd Hcov. unfold set_config_value, set_config_value_where.
  rewrite Hload.
  set (st0 := mkScan 0 false (replicate (length (normalize values)) false)).
  pose proof (scan_lines name (normalize values) false data 0 st0) as Hl.
  pose proof (scan_file_changed name (normalize values) false data 0 st0) as Hc.
  pose proof (scan_ticked_from_start name (normalize values) data) as Ht.
  fold st0 in Ht.
  destruct (scan _ _ _ _ _ _) as [data1 st]. simpl in *. subst data1.
  rewrite add_missing_unbound_ok; [by rewrite Hc |].
  intros j Hj. simpl.
  by apply (all_ticked name (normalize values) data (values_set st) Ht).
Qed.

(** Otherwise the call raises [NameError]: when a value is listed twice, or
    when a value is on no line of the directive.  The lines of the directive
    have been switched by then, and the document is not marked. *)
Lemma set_config_value_raises fs self name values data :
  ensure_loaded fs self = Ok data →
  ¬ (NoDup (normalize values)
     ∧ ∀ v, v ∈ normalize values → ∃ cfg, cfg ∈ data ∧ holds name v cfg) →
  set_config_value fs self name values false
  = Raised (NameError "value")
      (mkOpenVpn (Some (map (set_line name (normalize values)) data))
         (server_config_modified self)).
Proof.
  intros Hload Hnot. unfold set_config_value, set_config_value_where.
  rewrite Hload.
  set (st0 := mkScan 0 false (replicate (length (normalize values)) false)).
  pose proof (scan_lines name (normalize values) false data 0 st0) as Hl.
  pose proof (scan_values_set_length name (normalize values) false data 0 st0)
    as Hlen.
  pose proof (scan_ticked_from_start name (normalize values) data) as Ht.
  fold st0 in Ht.
  destruct (scan _ _ _ _ _ _) as [data1 st]. simpl in *. subst data1.
  rewrite length_replicate in Hlen.
  pose proof (add_missing_unbound name (last_cmd_idx st) (values_set st)
                (normalize values) 0 0
                (map (set_line name (normalize values)) data) (file_changed st))
    as Hkeep.
  pose proof (add_missing_unbound_all name (last_cmd_idx st) (values_set st)
                (normalize values) 0 0
                (map (set_line name (normalize values)) data) (file_changed st))
    as Hall.
  destruct (add_missing_unbound_cases name (last_cmd_idx st) (values_set st)
              (normalize values) 0 0
              (map (set_line name (normalize values)) data) (file_changed st)
              Hlen) as [Hn | Hr].
  - exfalso. apply Hnot.
    apply (all_ticked name (normalize values) data (values_set st) Ht).
    intros j Hj. by apply (Hall Hn j Hj).
  - destruct (add_missing _ _ _ _ _ _ _ _ _) as [e [data2 changed]].
    simpl in *. subst e. by inversion Hkeep.
Qed.

(** A call with [remove] on a loaded document never raises.  It switches off
    the active lines of the directive whose value is listed, or all its
    active lines when no value is given, keeps every other line, and returns
    [True], marking the document, exactly when it has switched a line off. *)
Lemma set_config_value_remove fs self name values data :
  ensure_loaded fs self = Ok data →
  set_config_value fs self name values true
  = Return (existsb (removed name (normalize values)) data)
      (mkOpenVpn (Some (map (remove_line name (normalize values)) data))
         (existsb (removed name (normalize values)) data)).
Proof.
  intros Hload. unfold set_config_value, set_config_value_where.
  rewrite Hload.
  set (st0 := mkScan 0 false (replicate (length (normalize values)) false)).
  pose proof (scan_lines name (normalize values) true data 0 st0) as Hl.
  pose proof (scan_file_changed name (normalize values) true data 0 st0) as Hc.
  destruct (scan _ _ _ _ _ _) as [data1 st]. simpl in *. subst data1.
  by rewrite Hc.
Qed.

End More.

(** ** How calls compose *)

Section Compose.
Import PyStr OpenVpn Examples.

Lemma set_line_keeps n name values cfg :
  concerns n (set_line name values cfg) = concerns n cfg
  ∧ params (set_line name values cfg) = params cfg.
Proof.
  unfold set_line, concerns, is_type.
  destruct cfg as [ix rw [[] |] cm pa co]; simpl; try done;
    destruct (bool_decide (cm = Some name)); simpl; try done;
    by destruct (bool_decide (pa ∈ values)).
Qed.

Lemma remove_line_keeps n name values cfg :
  concerns n (remove_line name values cfg) = concerns n cfg
  ∧ params (remove_line name values cfg) = params cfg.
Proof.
  unfold remove_line, to_remove, concerns, is_type.
  destruct cfg as [ix rw [[] |] cm pa co]; simpl; try done;
    destruct (bool_decide (cm = Some name)); simpl; try done;
    by destruct (bool_decide (pa ∈ values)), (bool_decide (values = [])).
Qed.

Lemma concerns_directive name cfg :
  concerns name cfg = true →
  (ltype cfg = Some CONFIG_LINE_CMD ∨ ltype cfg = Some CONFIG_LINE_CMD_COMMENT)
  ∧ cmd cfg = Some name.
Proof.
  unfold concerns, is_type. intros [Ht Hc]%andb_true_iff.
  apply bool_decide_eq_true in Hc. split; [| done].
  apply orb_true_iff in Ht as [Ht | Ht]; apply bool_decide_eq_true in Ht; auto.
Qed.

(** What a returning call means for the document it was made on. *)
Lemma set_config_value_return_covers fs self name values data c self1 :
  ensure_loaded fs self = Ok data →
  set_config_value fs self name values false = Return c self1 →
  NoDup (normalize values)
  ∧ ∀ v, v ∈ normalize values → ∃ cfg, cfg ∈ data ∧ holds name v cfg.
Proof.
  intros Hload. unfold set_config_value, set_config_value_where.
  rewrite Hload.
  set (st0 := mkScan 0 false (replicate (length (normalize values)) false)).
  pose proof (scan_ticked_from_start name (normalize values) data) as Ht.
  fold st0 in Ht.
  destruct (scan _ _ _ _ _ _) as [data1 st]. simpl in *.
  pose proof (add_missing_unbound_all name (last_cmd_idx st) (values_set st)
                (normalize values) 0 0 data1 (file_changed st)) as Hall.
  destruct (add_missing _ _ _ _ _ _ _ _ _) as [[e |] [data2 changed]];
    [done |]. intros _.
  apply (all_ticked name (normalize values) data (values_set st) Ht).
  intros j Hj. by apply (Hall eq_refl j Hj).
Qed.

(** X6. The end state of a call without [remove] that returns: among the lines
    of the directive the active ones are exactly those with a requested
    value, and every requested value is on an active line of the directive. *)
Theorem set_end_state fs self name values data c self1 :
  ensure_loaded fs self = Ok data →
  set_config_value fs self name values false = Return c self1 →
  ∃ data1,
    server_config_data self1 = Some data1
    ∧ (∀ cfg, cfg ∈ data1 → concerns name cfg = true →
         (ltype cfg = Some CONFIG_LINE_CMD ↔ params cfg ∈ normalize values))
    ∧ (∀ v, v ∈ normalize values →
         ∃ cfg, cfg ∈ data1 ∧ ltype cfg = Some CONFIG_LINE_CMD
                ∧ cmd cfg = Some name ∧ params cfg = v).
Proof.
  intros Hload Hret.
  pose proof (set_config_value_lines fs self name values false data Hload) as Hl.
  rewrite Hret in Hl. simpl in Hl.
  destruct (set_config_value_return_covers _ _ _ _ _ _ _ Hload Hret)
    as [_ Hcov].
  eexists. split; [exact Hl |]. split.
  - intros cfg' (cfg & -> & Hin)%list_elem_of_fmap.
    destruct (set_line_keeps name name (normalize values) cfg) as [-> ->].
    intros Hc. unfold set_line. rewrite Hc.
    case_bool_decide; simpl; [done |]. split; [done | by intros ?].
  - intros v Hv. destruct (Hcov v Hv) as (cfg & Hin & Hc & Hp).
    exists (set_line name (normalize values) cfg).
    split; [by apply list_elem_of_fmap_2 |].
    destruct (concerns_directive _ _ Hc) as [_ Hcmd].
    unfold set_line. rewrite Hc, bool_decide_eq_true_2 by by rewrite Hp.
    by simpl.
Qed.

Lemma remove_line_again name values cfg :
  remove_line name values (remove_line name values cfg)
  = remove_line name values cfg
  ∧ removed name values (remove_line name values cfg) = false.
Proof.
  unfold removed, remove_line, to_remove, concerns, is_type.
  destruct cfg as [ix rw [[] |] cm pa co]; simpl; try done;
    destruct (bool_decide (cm = Some name)) eqn:Hc; simpl; rewrite ?Hc;
    simpl; try done;
    destruct (bool_decide (pa ∈ values)) eqn:Hp,
             (bool_decide (values = [])) eqn:Hv;
    simpl; rewrite ?Hc, ?Hp, ?Hv; done.
Qed.

(** X7. Removing is idempotent: a removal made a second time returns [False],
    leaves the lines as they are and leaves the document unmarked. *)
Theorem remove_twice_idempotent fs self name values data :
  ensure_loaded fs self = Ok data →
  ∃ c data1,
    set_config_value fs self name values true
    = Return c (mkOpenVpn (Some data1) c)
    ∧ set_config_value fs (mkOpenVpn (Some data1) c) name values true
      = Return false (mkOpenVpn (Some data1) false).
Proof.
  intros Hload. do 2 eexists. split; [by apply set_config_value_remove |].
  rewrite (set_config_value_remove _ _ _ _
             (map (remove_line name (normalize values)) data)) by done.
  assert (existsb (removed name (normalize values))
            (map (remove_line name (normalize values)) data) = false) as ->.
  { clear Hload. induction data as [| cfg data IH]; [done |].
    cbn [map existsb].
    by rewrite (proj2 (remove_line_again name (normalize values) cfg)), IH. }
  do 2 f_equal. f_equal. rewrite map_map. apply map_ext. intros cfg.
  apply remove_line_again.
Qed.

Lemma concerns_one_name n1 n2 cfg :
  n1 ≠ n2 → concerns n1 cfg = true → concerns n2 cfg = false.
Proof.
  intros Hne [_ Hc]%concerns_directive. apply concerns_false.
  right; right. congruence.
Qed.

Lemma set_line_skip name values cfg :
  concerns name cfg = false → set_line name values cfg = cfg.
Proof. unfold set_line. by intros ->. Qed.

Lemma remove_line_skip name values cfg :
  concerns name cfg = false → remove_line name values cfg = cfg.
Proof. unfold remove_line, to_remove. by intros ->. Qed.

Lemma line_after_keeps n c cfg :
  concerns n (line_after c cfg) = concerns n cfg.
Proof.
  destruct c as [[name values] []]; simpl;
    [apply remove_line_keeps | apply set_line_keeps].
Qed.

Lemma line_after_skip c cfg :
  concerns c.1.1 cfg = false → line_after c cfg = cfg.
Proof.
  destruct c as [[name values] []]; simpl;
    [apply remove_line_skip | apply set_line_skip].
Qed.

Lemma line_after_commute c1 c2 cfg :
  c1.1.1 ≠ c2.1.1 →
  line_after c2 (line_after c1 cfg) = line_after c1 (line_after c2 cfg).
Proof.
  intros Hne.
  destruct (concerns c1.1.1 cfg) eqn:H1.
  - pose proof (concerns_one_name _ _ _ Hne H1) as H2.
    rewrite (line_after_skip c2 cfg) by done.
    apply line_after_skip. by rewrite line_after_keeps.
  - rewrite (line_after_skip c1 cfg) by done.
    symmetry. apply line_after_skip. by rewrite line_after_keeps.
Qed.

Lemma run_call_lines fs self c data :
  ensure_loaded fs self = Ok data →
  server_config_data (run_calls fs self [c]) = Some (map (line_after c) data).
Proof.
  intros Hload. destruct c as [[name values] remove]. simpl.
  rewrite (set_config_value_lines fs self name values remove data Hload).
  by destruct remove.
Qed.

Lemma run_two_calls_lines fs self c1 c2 data :
  ensure_loaded fs self = Ok data →
  server_config_data (run_calls fs self [c1; c2])
  = Some (map (line_after c2) (map (line_after c1) data)).
Proof.
  intros Hload.
  change [c1; c2] with (app [c1] [c2]). rewrite run_calls_app.
  apply run_call_lines. unfold ensure_loaded.
  by rewrite (run_call_lines fs self c1 data Hload).
Qed.

(** X8. Calls for two different directives commute: made in either order, and
    whether they return or raise, they leave the same lines. *)
Theorem different_directives_commute fs self data (c1 c2 : call) :
  ensure_loaded fs self = Ok data →
  c1.1.1 ≠ c2.1.1 →
  server_config_data (run_calls fs self [c1; c2])
  = server_config_data (run_calls fs self [c2; c1]).
Proof.
  intros Hload Hne.
  rewrite !(run_two_calls_lines fs self _ _ data Hload).
  f_equal. rewrite !map_map. apply map_ext. intros cfg.
  by apply line_after_commute.
Qed.

End Compose.

(** ** Flushing after calls, and the two configuration methods *)

Section Configure.
Import PyStr OpenVpn Examples.

Lemma set_line_again name values values' cfg :
  set_line name values (remove_line name values' (set_line name values cfg))
  = set_line name values cfg.
Proof.
  unfold set_line, remove_line, to_remove, concerns, is_type.
  destruct cfg as [ix rw [[] |] cm pa co]; simpl; try done;
    destruct (bool_decide (cm = Some name)) eqn:Hc; simpl; rewrite ?Hc;
    simpl; try done;
    destruct (bool_decide (pa ∈ values)) eqn:Hp,
             (bool_decide (pa ∈ values')) eqn:Hp',
             (bool_decide (values' = [])) eqn:Hv;
    simpl; rewrite ?Hc, ?Hp, ?Hp', ?Hv; simpl; rewrite ?Hc, ?Hp; done.
Qed.

(** X9. Switching the values of a directive off and on again: after a call
    without [remove] that returns, removing the same values and setting them
    again both return, and the lines are those after the first call. *)
Theorem remove_then_set_restores fs self name values data c1 self1 :
  ensure_loaded fs self = Ok data →
  set_config_value fs self name values false = Return c1 self1 →
  ∃ c2 self2 c3 self3,
    set_config_value fs self1 name values true = Return c2 self2
    ∧ set_config_value fs self2 name values false = Return c3 self3
    ∧ server_config_data self3 = server_config_data self1.
Proof.
  intros Hload Hret.
  destruct (set_config_value_return_covers _ _ _ _ _ _ _ Hload Hret)
    as [Hnd Hcov].
  rewrite (set_config_value_returns _ _ _ _ _ Hload Hnd Hcov) in Hret.
  inversion Hret; subst. clear Hret.
  do 4 eexists. split; [by apply set_config_value_remove |].
  split.
  - apply set_config_value_returns; [done | done |].
    intros v Hv. destruct (Hcov v Hv) as (cfg & Hin & Hc & Hp).
    eexists. split; [by apply list_elem_of_fmap_2, list_elem_of_fmap_2 |].
    destruct (remove_line_keeps name name (normalize values)
                (set_line name (normalize values) cfg)) as [E1 E2].
    destruct (set_line_keeps name name (normalize values) cfg) as [E3 E4].
    split; congruence.
  - simpl. f_equal. rewrite !map_map. apply map_ext. intros cfg.
    apply set_line_again.
Qed.

(** The lines of an object that started unloaded always have a text. *)
Lemma run_calls_has_text fs cs : ∀ self,
  (∀ data, server_config_data self = Some data → Forall has_text data) →
  ∀ data, server_config_data (run_calls fs self cs) = Some data →
          Forall has_text data.
Proof.
  induction cs as [| [[name values] remove] cs IH]; intros self Hself; [done |].
  simpl. apply IH. intros data Hdata.
  destruct (ensure_loaded fs self) as [data0 | e] eqn:Hload.
  - assert (Forall has_text data0) as H0.
    { unfold ensure_loaded in Hload.
      destruct (server_config_data self) as [d |] eqn:E.
      - inversion Hload; subst. by apply Hself.
      - by eapply load_has_text. }
    destruct (set_config_value_has_text fs self name values remove data0 Hload H0)
      as (data' & Hd & Hall). congruence.
  - unfold set_config_value, set_config_value_where in Hdata.
    rewrite Hload in Hdata. by apply Hself.
Qed.

(** X10. A document that the object has loaded itself and patched by any sequence
    of calls can be flushed: [update_config_file(force=True)] does not raise,
    returns [True], writes the text of the document and resets the mark. *)
Theorem flush_after_calls_succeeds backup_name fs cs data :
  server_config_data (run_calls fs (mkOpenVpn None false) cs) = Some data →
  ∃ fs',
    update_config_file backup_name fs (run_calls fs (mkOpenVpn None false) cs)
      true
    = (Return true (mkOpenVpn (Some data) false), fs')
    ∧ fs' !! get_config_file_path = Some (text_of data).
Proof.
  intros Hdata.
  destruct (update_config_file_flushes backup_name fs
              (run_calls fs (mkOpenVpn None false) cs) true data
              (or_introl eq_refl) Hdata) as (fs' & Hr & Hf & _).
  - by eapply (run_calls_has_text fs cs (mkOpenVpn None false)).
  - by exists fs'.
Qed.

Lemma holds_set_line n v name values cfg :
  holds n v (set_line name values cfg) ↔ holds n v cfg.
Proof.
  unfold holds. by destruct (set_line_keeps n name values cfg) as [-> ->].
Qed.

Lemma has_text_set_line name values cfg :
  has_text cfg → has_text (set_line name values cfg).
Proof.
  unfold set_line. destruct (concerns name cfg); [| done].
  intros _. case_bool_decide; unfold has_text, ConfigLine.raw; simpl; eauto.
Qed.

Lemma has_text_remove_line name values cfg :
  has_text cfg → has_text (remove_line name values cfg).
Proof.
  unfold remove_line. destruct (to_remove name values cfg); [| done].
  intros _. unfold has_text, ConfigLine.raw; simpl; eauto.
Qed.

Lemma promoted_other n name values values' cfg :
  n ≠ name →
  promoted name values (set_line n values' cfg) = promoted name values cfg.
Proof.
  intros Hne. destruct (concerns n cfg) eqn:Hc.
  - pose proof (concerns_one_name _ _ _ Hne Hc) as Hc'.
    unfold promoted.
    by rewrite (proj1 (set_line_keeps name n values' cfg)), Hc'.
  - by rewrite set_line_skip.
Qed.

Lemma existsb_promoted_other n name values values' data :
  n ≠ name →
  existsb (promoted name values) (map (set_line n values') data)
  = existsb (promoted name values) data.
Proof.
  intros Hne. induction data as [| cfg data IH]; [done |].
  cbn [map existsb]. by rewrite promoted_other, IH.
Qed.

(** A sequence of settings, of which one is on no line of its directive,
    raises [NameError]. *)
Lemma set_each_raises fs settings : ∀ self data,
  ensure_loaded fs self = Ok data →
  (∃ n v, (n, v) ∈ settings ∧ ∀ cfg, cfg ∈ data → ¬ holds n v cfg) →
  ∃ self', set_each fs self settings = Raised (NameError "value") self'.
Proof.
  induction settings as [| [n0 v0] settings IH];
    intros self data Hload (n & v & Hin & Hno).
  { by apply elem_of_nil in Hin. }
  simpl.
  destruct (existsb (λ cfg, concerns n0 cfg && bool_decide (params cfg = v0))
              data) eqn:Hheld.
  - apply existsb_exists in Hheld as (cfg0 & Hin0 & H0).
    apply andb_true_iff in H0 as [Hc0 Hp0]. apply bool_decide_eq_true in Hp0.
    apply list_elem_of_In in Hin0.
    rewrite (set_config_value_returns fs self n0 (VStr v0) data Hload).
    + apply (IH _ (map (set_line n0 [v0]) data)); [done |].
      exists n, v. split.
      * apply elem_of_cons in Hin as [[= -> ->] | Hin]; [| done].
        by destruct (Hno cfg0 Hin0).
      * intros cfg' (cfg & -> & Hcfg)%list_elem_of_fmap.
        rewrite holds_set_line. by apply Hno.
    + apply NoDup_singleton.
    + intros v' ->%list_elem_of_singleton. by exists cfg0.
  - rewrite (set_config_value_raises fs self n0 (VStr v0) data Hload);
      [by eexists |].
    intros [_ Hcov].
    destruct (Hcov v0 (list_elem_of_here _ _)) as (cfg & Hcfg & Hc & Hp).
    assert (existsb (λ cfg, concerns n0 cfg && bool_decide (params cfg = v0))
              data = true) as Hex; [| congruence].
    apply existsb_exists. exists cfg. split; [by apply list_elem_of_In |].
    by rewrite Hc, bool_decide_eq_true_2.
Qed.

(** A sequence of settings that are all on lines of their directives
    returns; the mark is that of the last call. *)
Lemma set_each_returns fs settings : ∀ data m,
  (∀ n v, (n, v) ∈ settings → ∃ cfg, cfg ∈ data ∧ holds n v cfg) →
  set_each fs (mkOpenVpn (Some data) m) settings
  = Return tt (mkOpenVpn (Some (after_settings settings (data, m)).1)
                 (after_settings settings (data, m)).2).
Proof.
  induction settings as [| [n0 v0] settings IH]; intros data m Hall; [done |].
  simpl.
  rewrite (set_config_value_returns fs (mkOpenVpn (Some data) m) n0 (VStr v0)
             data eq_refl).
  - rewrite IH; [done |]. intros n v Hin.
    destruct (Hall n v ltac:(by right)) as (cfg & Hcfg & Hh).
    exists (set_line n0 [v0] cfg).
    split; [by apply list_elem_of_fmap_2 | by apply holds_set_line].
  - apply NoDup_singleton.
  - intros v' ->%list_elem_of_singleton. apply Hall. by left.
Qed.

Lemma set_each_cons fs self n v settings :
  set_each fs self ((n, v) :: settings)
  = match set_config_value fs self n (VStr v) false with
    | Raised e self' => Raised e self'
    | Return _ self' => set_each fs self' settings
    end.
Proof. reflexivity. Qed.

Lemma configure_server_state fs self data :
  ensure_loaded fs self = Ok data →
  (∀ n v, (n, v) ∈ server_settings → ∃ cfg, cfg ∈ data ∧ holds n v cfg) →
  set_each fs self server_settings
  = Return tt (mkOpenVpn (Some (server_lines data))
                 (existsb (promoted "key" ["server.key"]) data)).
Proof.
  intros Hload Hall. unfold server_settings in *.
  rewrite set_each_cons.
  rewrite (set_config_value_returns fs self "port" (VStr "1194") data Hload);
    [| apply NoDup_singleton
     | intros v' ->%list_elem_of_singleton; apply Hall; by left].
  rewrite set_each_returns.
  - unfold after_settings, server_lines, server_settings. cbn [foldl fst snd].
    do 2 f_equal.
    by rewrite !existsb_promoted_other.
  - intros n v Hin. destruct (Hall n v ltac:(by right)) as (cfg & Hcfg & Hh).
    exists (set_line "port" ["1194"] cfg).
    split; [by apply list_elem_of_fmap_2 | by apply holds_set_line].
Qed.

(** X11. [configure_server] does not get through when one of its seven settings
    is on no line of the document, active or disabled: it raises [NameError]
    and writes nothing. *)
Theorem configure_server_missing_setting backup_name fs self data n v :
  ensure_loaded fs self = Ok data →
  (n, v) ∈ server_settings →
  (∀ cfg, cfg ∈ data → ¬ holds n v cfg) →
  ∃ self',
    configure_server backup_name fs self
    = (Raised (NameError "value") self', fs).
Proof.
  intros Hload Hin Hno. unfold configure_server.
  destruct (set_each_raises fs server_settings self data Hload) as [self' ->];
    [by exists n, v | by exists self'].
Qed.

(** X12. When each of the seven settings is on a line of the document,
    [configure_server] returns, and whether it writes the file depends on its
    last setting alone: it returns [False] and writes nothing unless a
    disabled line [key server.key] has been switched on, whatever it has
    switched for the other directives; when such a line has been switched on
    it writes the text of the document and returns [True]. *)
Theorem configure_server_last_setting_decides backup_name fs self data :
  ensure_loaded fs self = Ok data →
  (∀ n v, (n, v) ∈ server_settings → ∃ cfg, cfg ∈ data ∧ holds n v cfg) →
  (existsb (promoted "key" ["server.key"]) data = false →
   configure_server backup_name fs self
   = (Return false (mkOpenVpn (Some (server_lines data)) false), fs))
  ∧ (existsb (promoted "key" ["server.key"]) data = true →
     Forall has_text data →
     ∃ fs',
       configure_server backup_name fs self
       = (Return true (mkOpenVpn (Some (server_lines data)) false), fs')
       ∧ fs' !! get_config_file_path = Some (text_of (server_lines data))).
Proof.
  intros Hload Hall. unfold configure_server.
  rewrite (configure_server_state fs self data Hload Hall). split.
  - by intros ->.
  - intros -> Htext.
    destruct (update_config_file_flushes backup_name fs
                (mkOpenVpn (Some (server_lines data)) true) false
                (server_lines data) (or_intror eq_refl) eq_refl)
      as (fs' & Hr & Hf & _); [| by exists fs'].
    unfold server_lines. generalize server_settings. clear -Htext.
    intros settings. revert data Htext.
    induction settings as [| s settings IH]; intros data Htext; [done |].
    simpl. apply IH. apply Forall_fmap.
    eapply Forall_impl; [exact Htext |]. intros cfg. apply has_text_set_line.
Qed.

(** A check that computes: every setting is on a line of its directive. *)
Lemma settings_held (settings : list (string * string)) (data : list ConfigLine) :
  forallb (λ s, existsb (λ cfg, concerns s.1 cfg && bool_decide (params cfg = s.2))
                  data) settings = true →
  ∀ n v, (n, v) ∈ settings → ∃ cfg, cfg ∈ data ∧ holds n v cfg.
Proof.
  intros Hall n v Hin%list_elem_of_In.
  pose proof (proj1 (forallb_forall _ _) Hall (n, v) Hin) as H. simpl in H.
  apply existsb_exists in H as (cfg & Hcfg%list_elem_of_In & H).
  apply andb_true_iff in H as [Hc Hp]. apply bool_decide_eq_true in Hp.
  by exists cfg.
Qed.

(** X13. [configure_crl(None)] removes the directive and does not raise.  When no
    [crl-verify] line is active it returns [False] and writes nothing;
    otherwise it switches every active [crl-verify] line off, writes the text
    of the document and returns [True], and no [crl-verify] line is active
    any more. *)
Theorem configure_crl_removal backup_name fs self data :
  ensure_loaded fs self = Ok data →
  (existsb (removed "crl-verify" []) data = false →
   configure_crl backup_name fs self None
   = (Return false
        (mkOpenVpn (Some (map (remove_line "crl-verify" []) data)) false), fs))
  ∧ (existsb (removed "crl-verify" []) data = true →
     Forall has_text data →
     ∃ fs',
       configure_crl backup_name fs self None
       = (Return true
            (mkOpenVpn (Some (map (remove_line "crl-verify" []) data)) false),
          fs')
       ∧ fs' !! get_config_file_path
         = Some (text_of (map (remove_line "crl-verify" []) data))
       ∧ ∀ cfg, cfg ∈ map (remove_line "crl-verify" []) data →
                cmd cfg = Some "crl-verify" →
                ltype cfg ≠ Some CONFIG_LINE_CMD).
Proof.
  intros Hload. unfold configure_crl.
  rewrite (bool_decide_eq_true_2 (None = None)) by done.
  rewrite (set_config_value_remove fs self "crl-verify" VNone data Hload).
  simpl normalize. split.
  - by intros ->.
  - intros -> Htext.
    destruct (update_config_file_flushes backup_name fs
                (mkOpenVpn (Some (map (remove_line "crl-verify" []) data)) true)
                false (map (remove_line "crl-verify" []) data)
                (or_intror eq_refl) eq_refl)
      as (fs' & Hr & Hf & _).
    { apply Forall_fmap. eapply Forall_impl; [exact Htext |].
      intros cfg. apply has_text_remove_line. }
    exists fs'. split_and!; [done | done |].
    intros cfg' (cfg & -> & Hcfg)%list_elem_of_fmap.
    destruct (concerns "crl-verify" cfg) eqn:Hc.
    + unfold remove_line, to_remove. rewrite Hc.
      by rewrite (bool_decide_eq_true_2 ([] = [])), orb_true_r.
    + rewrite remove_line_skip by done. intros Hcmd Ht.
      unfold concerns, is_type in Hc. rewrite Hcmd, Ht in Hc.
      by rewrite !bool_decide_eq_true_2 in Hc.
Qed.

(** X14. [configure_crl(path)] raises [NameError] and writes nothing when no
    [crl-verify] line of the document, active or disabled, has that path.
    When such a line exists the method returns: [False], having written
    nothing, unless a disabled line with that path has been switched on, and
    then it writes the text of the document and returns [True]. *)
Theorem configure_crl_with_path backup_name fs self data path :
  ensure_loaded fs self = Ok data →
  ((∀ cfg, cfg ∈ data → ¬ holds "crl-verify" path cfg) →
   ∃ self',
     configure_crl backup_name fs self (Some path)
     = (Raised (NameError "value") self', fs))
  ∧ ((∃ cfg, cfg ∈ data ∧ holds "crl-verify" path cfg) →
     (existsb (promoted "crl-verify" [path]) data = false →
      configure_crl backup_name fs self (Some path)
      = (Return false
           (mkOpenVpn (Some (map (set_line "crl-verify" [path]) data)) false),
         fs))
     ∧ (existsb (promoted "crl-verify" [path]) data = true →
        Forall has_text data →
        ∃ fs',
          configure_crl backup_name fs self (Some path)
          = (Return true
               (mkOpenVpn (Some (map (set_line "crl-verify" [path]) data))
                  false), fs')
          ∧ fs' !! get_config_file_path
            = Some (text_of (map (set_line "crl-verify" [path]) data)))).
Proof.
  intros Hload. unfold configure_crl.
  rewrite (bool_decide_eq_false_2 (Some path = None)) by done. split.
  - intros Hno.
    rewrite (set_config_value_raises fs self "crl-verify" (VStr path) data
               Hload); [by eexists |].
    intros [_ Hcov].
    destruct (Hcov path (list_elem_of_here _ _)) as (cfg & Hcfg & Hh).
    by apply (Hno cfg).
  - intros Hheld.
    rewrite (set_config_value_returns fs self "crl-verify" (VStr path) data
               Hload);
      [| apply NoDup_singleton | by intros v ->%list_elem_of_singleton].
    simpl normalize. split.
    + by intros ->.
    + intros -> Htext.
      destruct (update_config_file_flushes backup_name fs
                  (mkOpenVpn (Some (map (set_line "crl-verify" [path]) data))
                     true)
                  false (map (set_line "crl-verify" [path]) data)
                  (or_intror eq_refl) eq_refl)
        as (fs' & Hr & Hf & _); [| by exists fs'].
      apply Forall_fmap. eapply Forall_impl; [exact Htext |].
      intros cfg. apply has_text_set_line.
Qed.

End Configure.

(** ** What the classifier makes of a line *)

Section Kinds.
Import PyStr Re Examples.

Lemma cmd_re_split :
  ConfigLine.cmd_re
  = Bol ⨾ Star is_space ⨾ Opt (Group 1 (Chr ";")) ⨾ cmd_re_tail.
Proof. reflexivity. Qed.

Lemma lstrip_head x : head_not is_space (lstrip x).
Proof.
  induction x as [| c x IH]; simpl; [done |].
  destruct (is_space c) eqn:Hc; [done | by simpl].
Qed.

Lemma rstrip_head c r :
  is_space c = false → ∃ r', rstrip (String c r) = String c r'.
Proof. intros Hc. simpl. rewrite Hc. destruct (rstrip r); eauto. Qed.

Lemma strip_head x : head_not is_space (strip x).
Proof.
  unfold strip. pose proof (lstrip_head x) as H.
  destruct (lstrip x) as [| c r]; [done |]. simpl in H.
  by destruct (rstrip_head c r H) as [r' ->].
Qed.

Lemma strip_nonempty c r : is_space c = false → strip (String c r) ≠ "".
Proof.
  intros Hc. unfold strip. simpl lstrip. rewrite Hc.
  by destruct (rstrip_head c r Hc) as [r' ->].
Qed.

Lemma lstrip_spaces x : all_chars is_space x = true → lstrip x = "".
Proof.
  induction x as [| c x IH]; simpl; [done |].
  intros [-> Hx]%andb_true_iff. by apply IH.
Qed.

(** The refinement of [run_through] to the groups of the pattern. *)
Lemma run_through_in (I P : spans → Prop) r : ∀ k,
  (∀ n sp g, n ∈ groups_in r → I g → I ((n, sp) :: g)) →
  answers I P k → answers I P (run r k).
Proof.
  induction r as [| | c | p | r1 IH1 r2 IH2 | r1 IH1 r2 IH2 | r1 IH1
                  | p | p | p | n r1 IH1];
    intros k Hcons Hk; simpl in *.
  - intros pos s g g' Hg. destruct (Nat.eqb pos 0); [by apply Hk | done].
  - intros pos s g g' Hg. destruct s as [| c [| c' s]]; [by apply Hk | | done].
    destruct (Ascii.eqb c (ch 10)); [by apply Hk | done].
  - by apply one_through.
  - by apply one_through.
  - apply IH1; [intros; apply Hcons; [set_solver | done] |].
    apply IH2; [intros; apply Hcons; [set_solver | done] | done].
  - intros pos s g g' Hg.
    destruct (run r1 k pos s g) as [x |] eqn:E.
    + intros [= <-].
      eapply (IH1 k); [intros; apply Hcons; [set_solver | done] | | |];
        eauto.
    + apply IH2; [intros; apply Hcons; [set_solver | done] | done | done].
  - intros pos s g g' Hg.
    destruct (run r1 k pos s g) as [x |] eqn:E.
    + intros [= <-]. eapply (IH1 k); eauto.
    + by apply Hk.
  - by apply star_greedy_through.
  - by apply one_through, star_greedy_through.
  - by apply one_through, star_lazy_through.
  - intros pos s g g' Hg.
    apply IH1; [intros; apply Hcons; [set_solver | done] | | done].
    intros pos' s' g1 g1' Hg1. apply Hk. apply Hcons; [set_solver | done].
Qed.

(** The tail of the directive pattern closes no group 1. *)
Lemma tail_no_group_1 pos s g g' :
  span_of 1 g = None →
  run cmd_re_tail (λ _ _ g, Some g) pos s g = Some g' → span_of 1 g' = None.
Proof.
  apply (run_through_in (λ g, span_of 1 g = None) (λ g, span_of 1 g = None)).
  - intros n sp g0 Hn Hg0. cbn [span_of].
    destruct (Nat.eqb_spec 1 n) as [<- | _]; [| done].
    exfalso. revert Hn. unfold cmd_re_tail. simpl.
    rewrite !elem_of_cons, elem_of_nil. lia.
  - by intros ? ? g0 g0' ? [= <-].
Qed.

Lemma cmt_re_head c r m :
  is_space c = false →
  re_match ConfigLine.cmt_re (String c r) = Some m → c = "#"%char.
Proof.
  intros Hc. unfold re_match, ConfigLine.cmt_re.
  cbn [run star_greedy Nat.eqb]. rewrite Hc. unfold one.
  destruct (Ascii.eqb_spec "#" c); [done | done].
Qed.

Lemma cmd_cmt_re_head c r m :
  is_space c = false →
  re_match ConfigLine.cmd_cmt_re (String c r) = Some m → c = ";"%char.
Proof.
  intros Hc. unfold re_match, ConfigLine.cmd_cmt_re.
  cbn [run star_greedy Nat.eqb]. rewrite Hc. unfold one.
  destruct (Ascii.eqb_spec ";" c); [done | done].
Qed.

Lemma tail_head c r pos g g' :
  is_space c = false →
  run cmd_re_tail (λ _ _ g, Some g) pos (String c r) g = Some g' →
  token_char c = true.
Proof.
  intros Hc. unfold cmd_re_tail. cbn [run star_greedy]. rewrite Hc.
  unfold one at 1. by destruct (token_char c).
Qed.

(** The first character decides between an active and a disabled
    directive. *)
Lemma cmd_re_head c r m :
  is_space c = false →
  re_match ConfigLine.cmd_re (String c r) = Some m →
  (c = ";"%char ∧ is_Some (group m 1))
  ∨ (token_char c = true ∧ group m 1 = None).
Proof.
  intros Hc. unfold re_match. rewrite cmd_re_split.
  cbn [run star_greedy Nat.eqb]. rewrite Hc. unfold one.
  destruct (Ascii.eqb_spec ";" c) as [<- | Hne].
  - destruct (run cmd_re_tail _ 1 r [(1, (0, 1))]) as [x |] eqn:E.
    + intros [= <-]. left. split; [done |]. unfold group. simpl.
      assert (has_group 1 x) as [[a b] ->]; [| eauto].
      eapply group_kept; [| exact E]. apply has_group_here.
    + destruct (run cmd_re_tail _ 0 (String ";" r) []) as [x |] eqn:E';
        [| done].
      by apply tail_head in E'.
  - destruct (run cmd_re_tail _ 0 (String c r) []) as [x |] eqn:E; [| done].
    intros [= <-]. right. split; [by eapply tail_head |].
    unfold group. simpl.
    by rewrite (tail_no_group_1 0 (String c r) [] x eq_refl E).
Qed.

(** The kind of a line follows from the first character of its stripped
    text: a blank line has none, a comment starts with [#] or [;], a disabled
    directive with [;], and an active directive with a character of a
    directive name.  The line keeps its position and its stripped text, and a
    directive has a name. *)
Lemma build_kind line i cl :
  ConfigLine.build line i = Ok cl →
  idx cl = Some i ∧ _raw cl = Some (strip line)
  ∧ match ltype cl with
    | Some CONFIG_LINE_BLANK => strip line = ""
    | Some CONFIG_LINE_COMMENT =>
        ∃ s, strip line = String "#" s ∨ strip line = String ";" s
    | Some CONFIG_LINE_CMD_COMMENT =>
        (∃ s, strip line = String ";" s) ∧ is_Some (cmd cl)
    | Some CONFIG_LINE_CMD =>
        (∃ c s, strip line = String c s ∧ token_char c = true)
        ∧ is_Some (cmd cl)
    | None => False
    end.
Proof.
  unfold ConfigLine.build.
  pose proof (strip_head line) as Hhead.
  destruct (strip line) as [| c r] eqn:Hs.
  { simpl. by intros [= <-]. }
  simpl in Hhead.
  assert (Nat.eqb (String.length (strip (String c r))) 0 = false) as ->.
  { apply Nat.eqb_neq. pose proof (strip_nonempty c r Hhead).
    by destruct (strip (String c r)). }
  destruct (re_match ConfigLine.cmt_re (String c r)) as [m |] eqn:Hcmt.
  { intros [= <-]. simpl. split_and!; [done | done |].
    exists r. left. by rewrite (cmt_re_head c r m Hhead Hcmt). }
  destruct (re_match ConfigLine.cmd_re (String c r)) as [m |] eqn:Hcmd.
  - destruct (cmd_re_groups _ _ Hcmd) as [[g2 ->] [g3 ->]].
    destruct (cmd_re_head c r m Hhead Hcmd) as [[-> [g1 ->]] | [Ht ->]];
      intros [= <-]; simpl; split_and!; eauto.
  - destruct (re_match ConfigLine.cmd_cmt_re (String c r)) as [m |] eqn:Hsemi;
      [| done].
    intros [= <-]. simpl. split_and!; [done | done |].
    exists r. right. by rewrite (cmd_cmt_re_head c r m Hhead Hsemi).
Qed.

(** X16. A line of white space only, the empty line included, is a blank line
    with an empty text. *)
Theorem build_blank_line line i :
  all_chars is_space line = true →
  ConfigLine.build line i
  = Ok (mkConfigLine (Some i) (Some "") (Some CONFIG_LINE_BLANK) None ""
          (Some "")).
Proof.
  intros Hsp. unfold ConfigLine.build, strip.
  by rewrite (lstrip_spaces line Hsp).
Qed.

(** X17. A line whose text starts with [#] is a comment, kept with its stripped
    text, whatever follows the [#]. *)
Theorem build_hash_line line i s :
  strip line = String "#" s →
  ConfigLine.build line i
  = Ok (mkConfigLine (Some i) (Some (strip line)) (Some CONFIG_LINE_COMMENT)
          None "" (Some "")).
Proof.
  intros Hs. unfold ConfigLine.build. rewrite Hs.
  assert (Nat.eqb (String.length (strip (String "#" s))) 0 = false) as ->.
  { apply Nat.eqb_neq. pose proof (strip_nonempty "#" s eq_refl).
    by destruct (strip (String "#" s)). }
  assert (∃ m, re_match ConfigLine.cmt_re (String "#" s) = Some m) as [m ->];
    [| done].
  unfold re_match, ConfigLine.cmt_re. simpl. unfold one. simpl.
  destruct (star_dot_accepts s 1 []) as [g' ->]. eauto.
Qed.

End Kinds.

(** ** Loading *)

Section Loading.
Import PyStr Re OpenVpn Examples.

Lemma build_lines_raise ls : ∀ i l,
  l ∈ ls → (∀ j, ConfigLine.build l j = Raise AttributeError) →
  build_lines i ls = Raise AttributeError.
Proof.
  induction ls as [| l0 ls IH]; intros i l Hin Hl.
  { by apply elem_of_nil in Hin. }
  simpl. destruct (ConfigLine.build l0 i) as [cl | e] eqn:Hb.
  - apply elem_of_cons in Hin as [-> | Hin]; [by rewrite Hl in Hb |].
    by rewrite (IH (S i) l Hin Hl).
  - by destruct (build_raises_only _ _ _ Hb) as [-> _].
Qed.

Lemma build_single_token line i :
  strip line ≠ "" → all_chars token_char (strip line) = true →
  ConfigLine.build line i = Raise AttributeError.
Proof.
  intros Hne Hw. unfold ConfigLine.build.
  rewrite !(strip_token (strip line)) by done.
  destruct (single_token_no_match _ Hne Hw) as (-> & -> & ->).
  by destruct (strip line).
Qed.

(** X21. A file with a line that is a single token cannot be loaded: the loader
    raises [AttributeError], and so does every call of [set_config_value] on
    an object that has not loaded the file, which stays unloaded. *)
Theorem load_rejects_single_token (fs : filesystem) content l :
  fs !! get_config_file_path = Some content →
  l ∈ readlines content →
  strip l ≠ "" → all_chars token_char (strip l) = true →
  load_config_file_lines fs = Raise AttributeError
  ∧ ∀ m name values remove,
      set_config_value fs (mkOpenVpn None m) name values remove
      = Raised AttributeError (mkOpenVpn None m).
Proof.
  intros Hfile Hin Hne Htok.
  assert (load_config_file_lines fs = Raise AttributeError) as Hload.
  { unfold load_config_file_lines. rewrite Hfile.
    apply (build_lines_raise _ 0 l Hin). intros j.
    by apply build_single_token. }
  split; [done |]. intros m name values remove.
  unfold set_config_value, set_config_value_where, ensure_loaded. simpl.
  by rewrite Hload.
Qed.

Lemma build_lines_positions ls : ∀ i data,
  build_lines i ls = Ok data →
  length data = length ls
  ∧ ∀ k cl, data !! k = Some cl →
      idx cl = Some (i + k)%nat
      ∧ ∃ l, ls !! k = Some l ∧ _raw cl = Some (strip l).
Proof.
  induction ls as [| l ls IH]; intros i data; simpl.
  - intros [= <-]. split; [done |]. by intros k cl H.
  - destruct (ConfigLine.build l i) as [c0 | e] eqn:Hb; [| done].
    destruct (build_lines (S i) ls) as [rest | e] eqn:Hrest; [| done].
    intros [= <-]. destruct (IH (S i) rest Hrest) as [Hlen Hpos].
    split; [simpl; lia |].
    intros [| k] cl Hk; simpl in Hk.
    + inversion Hk; subst.
      destruct (build_kind l i cl Hb) as (Hi & Hr & _).
      rewrite Nat.add_0_r. split; [done |]. by exists l.
    + destruct (Hpos k cl Hk) as [Hi Hl].
      split; [by replace (i + S k)%nat with (S i + k)%nat by lia | done].
Qed.

(** X22. A loaded document has one line for each line of the file, in the order
    of the file; the line at a position has that position as its index and
    the stripped text of the line of the file as its stored text. *)
Theorem load_keeps_positions (fs : filesystem) content data :
  fs !! get_config_file_path = Some content →
  load_config_file_lines fs = Ok data →
  length data = length (readlines content)
  ∧ ∀ k cl, data !! k = Some cl →
      idx cl = Some k
      ∧ ∃ l, readlines content !! k = Some l ∧ _raw cl = Some (strip l).
Proof.
  intros Hfile. unfold load_config_file_lines. rewrite Hfile.
  intros Hb. destruct (build_lines_positions _ 0 data Hb) as [Hlen Hpos].
  split; [done |]. intros k cl Hk. by destruct (Hpos k cl Hk).
Qed.

End Loading.

(** ** Plain directive lines *)

Section PlainDirective.
Import PyStr Re Examples.

Lemma cmd_re_tail_split :
  cmd_re_tail
  = Star is_space ⨾ Group 2 (Plus token_char) ⨾ Plus is_space ⨾ cmd_re_value.
Proof. reflexivity. Qed.

Lemma run_seq r1 r2 k : run (r1 ⨾ r2) k = run r1 (run r2 k).
Proof. reflexivity. Qed.

Lemma run_group n r k pos s g :
  run (Group n r) k pos s g
  = run r (λ pos' s' g', k pos' s' ((n, (pos, pos')) :: g')) pos s g.
Proof. reflexivity. Qed.

Lemma star_greedy_take p k w : ∀ s pos g r,
  all_chars p w = true → head_not p s →
  k (pos + String.length w)%nat s g = Some r →
  star_greedy p k pos (w +:+ s) g = Some r.
Proof.
  induction w as [| a w IH]; intros s pos g r Hw Hs Hk.
  - simpl in Hk. rewrite Nat.add_0_r in Hk.
    change ("" +:+ s) with s. destruct s as [| c s]; simpl; [done |].
    simpl in Hs. by rewrite Hs.
  - simpl in Hw. apply andb_true_iff in Hw as [Ha Hw].
    rewrite append_cons. simpl star_greedy. rewrite Ha.
    rewrite (IH s (S pos) g r Hw Hs); [done |].
    simpl in Hk. by replace (S pos + String.length w)%nat
      with (pos + S (String.length w))%nat by lia.
Qed.

Lemma star_greedy_none (q p : ascii → bool) k w : ∀ pos g,
  all_chars q w = true →
  (∀ pos' s' g', all_chars q s' = true → k pos' s' g' = None) →
  star_greedy p k pos w g = None.
Proof.
  induction w as [| c w IH]; intros pos g Hw Hk; simpl; [by apply Hk |].
  pose proof Hw as Hw'. simpl in Hw'.
  apply andb_true_iff in Hw' as [_ Hrest].
  rewrite (IH _ _ Hrest Hk). destruct (p c); by apply Hk.
Qed.

Lemma value_char_dot c : value_char c = true → dot c = true.
Proof. unfold value_char. by intros [[? _]%andb_true_iff _]%andb_true_iff. Qed.

Lemma value_char_no_sign c :
  value_char c = true → Ascii.eqb "#" c = false ∧ Ascii.eqb ";" c = false.
Proof.
  unfold value_char. intros [[_ H1]%andb_true_iff H2]%andb_true_iff.
  apply negb_true_iff in H1, H2. by rewrite Ascii.eqb_sym, H1, Ascii.eqb_sym, H2.
Qed.

(** Within a plain value no trailing comment starts, and the line does not
    end. *)
Lemma comment_not_in_value s pos g :
  s ≠ "" → all_chars value_char s = true →
  run cmd_re_comment (λ _ _ g, Some g) pos s g = None.
Proof.
  intros Hne Hs. unfold cmd_re_comment. rewrite run_seq.
  change (run (Opt ?r) ?k pos s g)
    with (match run r k pos s g with Some x => Some x | None => k pos s g end).
  rewrite run_group, run_seq.
  change (run (Star is_space) ?k) with (star_greedy is_space k).
  rewrite (star_greedy_none value_char); [| done |].
  - destruct s as [| c [| c' s]]; [done | | done]. simpl.
    simpl in Hs. apply andb_true_iff in Hs as [Hc _].
    apply value_char_dot in Hc. unfold dot in Hc.
    apply negb_true_iff in Hc. by rewrite Hc.
  - intros pos' [| c s'] g' Hs'; [done |].
    simpl in Hs'. apply andb_true_iff in Hs' as [Hc _].
    destruct (value_char_no_sign c Hc) as [H1 H2].
    cbn [run]. unfold one. by rewrite H1, H2.
Qed.

Lemma comment_at_end pos g :
  run cmd_re_comment (λ _ _ g, Some g) pos "" g = Some g.
Proof. reflexivity. Qed.

Lemma star_lazy_value (k : cont) r : ∀ pos g,
  all_chars value_char r = true →
  (∀ pos' s' g', s' ≠ "" → all_chars value_char s' = true →
                 k pos' s' g' = None) →
  star_lazy dot k pos r g = k (pos + String.length r)%nat "" g.
Proof.
  induction r as [| c r IH]; intros pos g Hr Hk; simpl.
  - rewrite Nat.add_0_r. by destruct (k pos "" g).
  - rewrite (Hk pos (String c r) g) by done.
    simpl in Hr. apply andb_true_iff in Hr as [Hc Hr].
    rewrite (value_char_dot c Hc), (IH (S pos) g Hr Hk).
    by replace (S pos + String.length r)%nat
      with (pos + S (String.length r))%nat by lia.
Qed.

(** A plain value is taken as a whole by the lazy group 3. *)
Lemma value_matches value pos g :
  value ≠ "" → all_chars value_char value = true →
  run cmd_re_value (λ _ _ g, Some g) pos value g
  = Some ((3, (pos, (pos + String.length value)%nat)) :: g).
Proof.
  intros Hne Hv. unfold cmd_re_value. rewrite run_seq, run_group.
  destruct value as [| c v]; [done |].
  simpl in Hv. apply andb_true_iff in Hv as [Hc Hv].
  change (run (PlusLazy dot) ?k) with (one dot (star_lazy dot k)).
  unfold one. rewrite (value_char_dot c Hc).
  rewrite star_lazy_value; [| done |].
  - rewrite comment_at_end. simpl. do 4 f_equal. lia.
  - intros pos' s' g' Hs' Hall. by apply comment_not_in_value.
Qed.

(** A name, white space and a plain value match the tail of the directive
    pattern, with the name as group 2 and the value as group 3. *)
Lemma tail_matches name sep value pos g :
  name ≠ "" → all_chars token_char name = true →
  sep ≠ "" → all_chars is_space sep = true →
  value ≠ "" → all_chars value_char value = true →
  head_not is_space value →
  run cmd_re_tail (λ _ _ g, Some g) pos (name +:+ sep +:+ value) g
  = Some ((3, ((pos + String.length name + String.length sep)%nat,
               (pos + String.length name + String.length sep
                + String.length value)%nat))
          :: (2, (pos, (pos + String.length name)%nat)) :: g).
Proof.
  intros Hn Hname Hs Hsep Hv Hvalue Hhead.
  rewrite cmd_re_tail_split, run_seq.
  destruct name as [| a name]; [done |].
  simpl in Hname. apply andb_true_iff in Hname as [Ha Hname].
  destruct (token_char_plain a Ha) as (Hasp & _ & _).
  change (run (Star is_space) ?k) with (star_greedy is_space k).
  rewrite append_cons. cbn [star_greedy]. rewrite Hasp.
  rewrite run_seq, run_group.
  change (run (Plus token_char) ?k) with (one token_char (star_greedy token_char k)).
  unfold one at 1. rewrite Ha.
  destruct sep as [| b sep]; [done |].
  simpl in Hsep. apply andb_true_iff in Hsep as [Hb Hsep].
  apply star_greedy_take; [done | |].
  { simpl. destruct (token_char b) eqn:Htb; [| done].
    destruct (token_char_plain b Htb) as [Hbs _]. congruence. }
  cbv beta. rewrite run_seq.
  change (run (Plus is_space) ?k) with (one is_space (star_greedy is_space k)).
  rewrite append_cons. unfold one. rewrite Hb.
  apply star_greedy_take; [done | done |].
  cbv beta. rewrite value_matches by done.
  simpl. do 3 f_equal; [| do 3 f_equal]; f_equal; lia.
Qed.

Lemma substring_prefix a b :
  substring 0 (String.length a) (a +:+ b) = a.
Proof.
  induction a as [| c a IH].
  - change ("" +:+ b) with b. by destruct b.
  - rewrite append_cons. simpl. by rewrite IH.
Qed.

Lemma substring_whole b : substring 0 (String.length b) b = b.
Proof. induction b as [| c b IH]; simpl; [done | by rewrite IH]. Qed.

Lemma substring_skip a b n m :
  substring (String.length a + n) m (a +:+ b) = substring n m b.
Proof.
  induction a as [| c a IH]; [done |]. rewrite append_cons. simpl. by rewrite IH.
Qed.

Lemma substring_skip0 a b m :
  substring (String.length a) m (a +:+ b) = substring 0 m b.
Proof.
  rewrite <-(Nat.add_0_r (String.length a)). apply substring_skip.
Qed.

Lemma rstrip_app a value :
  value ≠ "" → rstrip value = value → rstrip (a +:+ value) = a +:+ value.
Proof.
  intros Hne Hv. induction a as [| c a IH]; [done |].
  rewrite append_cons. simpl. rewrite IH.
  destruct (a +:+ value) eqn:E; [| done].
  destruct a as [| c' a'].
  - change ("" +:+ value) with value in E. congruence.
  - by rewrite append_cons in E.
Qed.

Lemma strip_fixed value :
  value ≠ "" → strip value = value →
  head_not is_space value ∧ rstrip value = value.
Proof.
  intros Hne Hv. pose proof (strip_head value) as Hh. rewrite Hv in Hh.
  split; [done |].
  destruct value as [| c r]; [done |]. simpl in Hh.
  unfold strip in Hv. simpl lstrip in Hv. by rewrite Hh in Hv.
Qed.

Lemma plain_line_stripped name sep value :
  name ≠ "" → all_chars token_char name = true →
  value ≠ "" → strip value = value →
  strip (name +:+ sep +:+ value) = name +:+ sep +:+ value
  ∧ strip (String ";" (name +:+ sep +:+ value))
    = String ";" (name +:+ sep +:+ value).
Proof.
  intros Hn Hname Hv Hvalue.
  destruct (strip_fixed value Hv Hvalue) as [_ Hr].
  destruct name as [| a name]; [done |].
  simpl in Hname. apply andb_true_iff in Hname as [Ha _].
  destruct (token_char_plain a Ha) as (Hasp & _ & _).
  pose proof (rstrip_app (String a name +:+ sep) value Hv Hr) as H1.
  pose proof (rstrip_app (String ";" (String a name +:+ sep)) value Hv Hr) as H2.
  rewrite append_assoc in H1. rewrite append_cons, append_assoc in H2.
  unfold strip. split.
  - rewrite append_cons. simpl lstrip. rewrite Hasp.
    by rewrite <-append_cons.
  - by simpl lstrip.
Qed.

(** X20. A plain directive line: a name, white space and a value without comment
    signs.  It is classified as an active directive with that name and that
    value, and as a disabled one behind a [;].  It has no trailing comment, so
    that the text written for it is the name, a space, the value, a space and
    [None]. *)
Theorem build_plain_directive_line name sep value i :
  name ≠ "" → all_chars token_char name = true →
  sep ≠ "" → all_chars is_space sep = true →
  value ≠ "" → all_chars value_char value = true → strip value = value →
  ConfigLine.build (name +:+ sep +:+ value) i
  = Ok (mkConfigLine (Some i) (Some (name +:+ sep +:+ value))
          (Some CONFIG_LINE_CMD) (Some name) value None)
  ∧ ConfigLine.build (String ";" (name +:+ sep +:+ value)) i
    = Ok (mkConfigLine (Some i) (Some (String ";" (name +:+ sep +:+ value)))
            (Some CONFIG_LINE_CMD_COMMENT) (Some name) value None)
  ∧ ConfigLine.raw
      (mkConfigLine (Some i) (Some (name +:+ sep +:+ value))
         (Some CONFIG_LINE_CMD) (Some name) value None)
    = Some (name +:+ " " +:+ value +:+ " None").
Proof.
  intros Hn Hname Hs Hsep Hv Hvalue Hstrip.
  destruct (plain_line_stripped name sep value Hn Hname Hv Hstrip) as [E1 E2].
  destruct (strip_fixed value Hv Hstrip) as [Hhead _].
  pose proof (tail_matches name sep value 0 [] Hn Hname Hs Hsep Hv Hvalue Hhead)
    as T0.
  pose proof (tail_matches name sep value 1 [(1, (0, 1))] Hn Hname Hs Hsep Hv
                Hvalue Hhead) as T1.
  assert (strip name = name) as Hsn by by apply strip_token.
  assert (∃ a name', name = String a name' ∧ token_char a = true)
    as (a & name' & En & Ha).
  { destruct name as [| a name']; [done |]. simpl in Hname.
    apply andb_true_iff in Hname as [? _]. eauto. }
  destruct (token_char_plain a Ha) as (Hasp & Hah & Has).
  assert (∃ rest, name +:+ sep +:+ value = String a rest) as [rest Hrest].
  { rewrite En, append_cons. eauto. }
  split_and!.
  - unfold ConfigLine.build. rewrite !E1.
    rewrite Hrest in *.
    assert (re_match ConfigLine.cmt_re (String a rest) = None) as ->.
    { unfold re_match, ConfigLine.cmt_re. cbn [run star_greedy Nat.eqb].
      unfold one. by rewrite Hasp, Hah. }
    assert (re_match ConfigLine.cmd_re (String a rest)
            = Some {| subject := String a rest;
                      groups := [(3, ((0 + String.length name
                                       + String.length sep)%nat,
                                      (0 + String.length name + String.length sep
                                       + String.length value)%nat));
                                 (2, (0, (0 + String.length name)%nat))] |})
      as ->.
    { unfold re_match. rewrite cmd_re_split. cbn [run star_greedy Nat.eqb].
      rewrite Hasp. unfold one at 1. rewrite Has. by rewrite T0. }
    unfold group. simpl groups. simpl subject. cbn [span_of Nat.eqb].
    rewrite <-Hrest. simpl Nat.add.
    replace (String.length name + String.length sep
             + String.length value - (String.length name + String.length sep))%nat
      with (String.length value) by lia.
    rewrite Nat.sub_0_r, substring_prefix.
    rewrite substring_skip, substring_skip0, substring_whole.
    assert (Nat.eqb (String.length (name +:+ sep +:+ value)) 0 = false) as ->
      by by rewrite Hrest.
    by rewrite Hsn, Hstrip.
  - unfold ConfigLine.build. rewrite !E2.
    assert (re_match ConfigLine.cmt_re (String ";" (name +:+ sep +:+ value))
            = None) as -> by done.
    assert (re_match ConfigLine.cmd_re (String ";" (name +:+ sep +:+ value))
            = Some {| subject := String ";" (name +:+ sep +:+ value);
                      groups := [(3, ((1 + String.length name
                                       + String.length sep)%nat,
                                      (1 + String.length name + String.length sep
                                       + String.length value)%nat));
                                 (2, (1, (1 + String.length name)%nat));
                                 (1, (0, 1))] |})
      as ->.
    { unfold re_match. rewrite cmd_re_split. cbn [run star_greedy Nat.eqb].
      change (is_space ";") with false. cbv iota.
      unfold one at 1. change (Ascii.eqb ";" ";") with true. cbv iota beta.
      by rewrite T1. }
    unfold group. simpl groups. simpl subject. cbn [span_of Nat.eqb].
    replace (S (String.length name) - 1)%nat with (String.length name) by lia.
    replace (S (String.length name + String.length sep + String.length value)
             - S (String.length name + String.length sep))%nat
      with (String.length value) by lia.
    cbn [substring String.length Nat.eqb]. rewrite substring_prefix.
    rewrite substring_skip, substring_skip0, substring_whole.
    by rewrite Hsn, Hstrip.
  - reflexivity.
Qed.

End PlainDirective.

(** * Further properties, by the methods they are about *)

Section Extras.
Import PyStr Re OpenVpn Examples.

(** X1. Idempotence of the calls that return: when a call of [set_config_value]
    without [remove] returns, the same call made again returns [False],
    leaves every line as it is and leaves the document unmarked. *)
Theorem set_twice_idempotent fs self name values changed self1 :
  set_config_value fs self name values false = Return changed self1 →
  set_config_value fs self1 name values false
  = Return false (mkOpenVpn (server_config_data self1) false).
Proof. exact (set_config_value_again fs self name values changed self1). Qed.

Lemma set_twice_idempotent_witness :
  set_config_value (conf (";port 1194" +:+ NL))
    (mkOpenVpn (Some [active 0 ";port 1194" "port" "1194"]) true) "port"
    (VStr "1194") false
  = Return false (mkOpenVpn (Some [active 0 ";port 1194" "port" "1194"]) false).
Proof.
  apply (set_twice_idempotent (conf (";port 1194" +:+ NL)) fresh "port"
           (VStr "1194") true
           (mkOpenVpn (Some [active 0 ";port 1194" "port" "1194"]) true)).
  by vm_compute.
Defined.

(** X2. The document after a call, whether the call returns or raises: the first
    loop has mapped every line on its own.  With [remove] a line of the
    directive with a listed value (any line of the directive when no value is
    given) is disabled; without it a line of the directive is active when its
    value is listed and disabled when it is not; any other line is kept. *)
Theorem call_maps_lines fs self name values remove data :
  ensure_loaded fs self = Ok data →
  server_config_data
    (final_state (set_config_value fs self name values remove))
  = Some (map (if remove then remove_line name (normalize values)
               else set_line name (normalize values)) data).
Proof. exact (set_config_value_lines fs self name values remove data). Qed.

Lemma call_maps_lines_witness :
  server_config_data
    (final_state
       (set_config_value (conf ("port 1195" +:+ NL +:+ "# x" +:+ NL)) fresh
          "port" (VStr "1194") false))
  = Some [disabled 0 "port 1195" "port" "1195";
          mkConfigLine (Some 1) (Some "# x") (Some CONFIG_LINE_COMMENT) None ""
            (Some "")].
Proof.
  by rewrite (call_maps_lines _ _ _ _ _
                [active 0 "port 1195" "port" "1195";
                 mkConfigLine (Some 1) (Some "# x") (Some CONFIG_LINE_COMMENT)
                   None "" (Some "")]) by by vm_compute.
Defined.

(** X3. A call without [remove] returns when no value is listed twice and each
    value is on a line of the directive, active or disabled.  It returns
    [True], and marks the document, exactly when it has switched a disabled
    line on; switching a stale active line off is not reported. *)
Theorem set_returns_when_covered fs self name values data :
  ensure_loaded fs self = Ok data →
  NoDup (normalize values) →
  (∀ v, v ∈ normalize values → ∃ cfg, cfg ∈ data ∧ holds name v cfg) →
  set_config_value fs self name values false
  = Return (existsb (promoted name (normalize values)) data)
      (mkOpenVpn (Some (map (set_line name (normalize values)) data))
         (existsb (promoted name (normalize values)) data)).
Proof. exact (set_config_value_returns fs self name values data). Qed.

Lemma set_returns_when_covered_witness :
  set_config_value (conf (";push a" +:+ NL +:+ "push b" +:+ NL +:+ "push c" +:+ NL))
    fresh "push" (VList ["a"; "b"]) false
  = Return true
      (mkOpenVpn (Some [active 0 ";push a" "push" "a";
                        active 1 "push b" "push" "b";
                        disabled 2 "push c" "push" "c"]) true).
Proof.
  rewrite (set_returns_when_covered _ _ _ _
             [disabled 0 ";push a" "push" "a"; active 1 "push b" "push" "b";
              active 2 "push c" "push" "c"]); [by vm_compute | by vm_compute | |].
  - apply NoDup_cons. split; [by intros ?%list_elem_of_singleton |].
    apply NoDup_singleton.
  - intros v [-> | [-> | []%elem_of_nil]%elem_of_cons]%elem_of_cons.
    + exists (disabled 0 ";push a" "push" "a"). split; [by left | by vm_compute].
    + exists (active 1 "push b" "push" "b").
      split; [by right; left | by vm_compute].
Defined.

(** X4. Otherwise a call without [remove] raises [NameError]: when a value is
    listed twice, or when a value is on no line of the directive.  By then
    the lines of the directive have been switched, and the modification mark
    is left as it was. *)
Theorem set_raises_when_uncovered fs self name values data :
  ensure_loaded fs self = Ok data →
  ¬ (NoDup (normalize values)
     ∧ ∀ v, v ∈ normalize values → ∃ cfg, cfg ∈ data ∧ holds name v cfg) →
  set_config_value fs self name values false
  = Raised (NameError "value")
      (mkOpenVpn (Some (map (set_line name (normalize values)) data))
         (server_config_modified self)).
Proof. exact (set_config_value_raises fs self name values data). Qed.

Lemma set_raises_when_uncovered_witness :
  set_config_value (conf ("push a" +:+ NL)) fresh "push" (VList ["a"; "a"]) false
  = Raised (NameError "value")
      (mkOpenVpn (Some [active 0 "push a" "push" "a"]) false).
Proof.
  rewrite (set_raises_when_uncovered _ _ _ _ [active 0 "push a" "push" "a"]);
    [by vm_compute | by vm_compute |].
  intros [[Hnot _]%NoDup_cons _]. apply Hnot. by left.
Defined.

(** X5. A call with [remove] on a loaded document never raises.  It switches off
    the active lines of the directive whose value is listed, or all its
    active lines when no value is given, keeps every other line, and returns
    [True], marking the document, exactly when it has switched a line off. *)
Theorem remove_never_raises fs self name values data :
  ensure_loaded fs self = Ok data →
  set_config_value fs self name values true
  = Return (existsb (removed name (normalize values)) data)
      (mkOpenVpn (Some (map (remove_line name (normalize values)) data))
         (existsb (removed name (normalize values)) data)).
Proof. exact (set_config_value_remove fs self name values data). Qed.

Lemma remove_never_raises_witness :
  set_config_value (conf ("push a" +:+ NL +:+ "push b" +:+ NL)) fresh "push"
    VNone true
  = Return true
      (mkOpenVpn (Some [disabled 0 "push a" "push" "a";
                        disabled 1 "push b" "push" "b"]) true).
Proof.
  by rewrite (remove_never_raises _ _ _ _
                [active 0 "push a" "push" "a"; active 1 "push b" "push" "b"])
    by by vm_compute.
Defined.

Lemma set_end_state_witness :
  ∃ data1,
    Some [active 0 ";port 1194" "port" "1194";
          disabled 1 "port 1195" "port" "1195"] = Some data1
    ∧ (∀ cfg, cfg ∈ data1 → concerns "port" cfg = true →
         (ltype cfg = Some CONFIG_LINE_CMD ↔ params cfg ∈ ["1194"]))
    ∧ (∀ v, v ∈ ["1194"] →
         ∃ cfg, cfg ∈ data1 ∧ ltype cfg = Some CONFIG_LINE_CMD
                ∧ cmd cfg = Some "port" ∧ params cfg = v).
Proof.
  apply (set_end_state
           (conf (";port 1194" +:+ NL +:+ "port 1195" +:+ NL)) fresh "port"
           (VStr "1194")
           [disabled 0 ";port 1194" "port" "1194";
            active 1 "port 1195" "port" "1195"] true
           (mkOpenVpn (Some [active 0 ";port 1194" "port" "1194";
                             disabled 1 "port 1195" "port" "1195"]) true));
    by vm_compute.
Defined.

Lemma remove_twice_idempotent_witness :
  ∃ c data1,
    set_config_value (conf ("push a" +:+ NL)) fresh "push" (VStr "a") true
    = Return c (mkOpenVpn (Some data1) c)
    ∧ set_config_value (conf ("push a" +:+ NL)) (mkOpenVpn (Some data1) c)
        "push" (VStr "a") true
      = Return false (mkOpenVpn (Some data1) false).
Proof.
  apply (remove_twice_idempotent _ _ _ _ [active 0 "push a" "push" "a"]).
  by vm_compute.
Defined.

Lemma different_directives_commute_witness :
  server_config_data
    (run_calls (conf ("port 1195" +:+ NL +:+ "proto udp" +:+ NL)) fresh
       [("port", VStr "1194", false); ("proto", VNone, true)])
  = server_config_data
      (run_calls (conf ("port 1195" +:+ NL +:+ "proto udp" +:+ NL)) fresh
         [("proto", VNone, true); ("port", VStr "1194", false)]).
Proof.
  apply (different_directives_commute _ _ [active 0 "port 1195" "port" "1195";
                            active 1 "proto udp" "proto" "udp"]);
    by vm_compute.
Defined.

Lemma remove_then_set_restores_witness :
  ∃ c2 self2 c3 self3,
    set_config_value (conf (";port 1194" +:+ NL))
      (mkOpenVpn (Some [active 0 ";port 1194" "port" "1194"]) true)
      "port" (VStr "1194") true = Return c2 self2
    ∧ set_config_value (conf (";port 1194" +:+ NL)) self2 "port" (VStr "1194")
        false = Return c3 self3
    ∧ server_config_data self3 = Some [active 0 ";port 1194" "port" "1194"].
Proof.
  apply (remove_then_set_restores (conf (";port 1194" +:+ NL)) fresh "port" (VStr "1194")
           [disabled 0 ";port 1194" "port" "1194"] true
           (mkOpenVpn (Some [active 0 ";port 1194" "port" "1194"]) true));
    by vm_compute.
Defined.

Lemma flush_after_calls_succeeds_witness :
  ∃ fs',
    update_config_file dot_bak (conf (";port 1194" +:+ NL))
      (run_calls (conf (";port 1194" +:+ NL)) (mkOpenVpn None false)
         [("port", VStr "1194", false)]) true
    = (Return true
         (mkOpenVpn (Some [active 0 ";port 1194" "port" "1194"]) false), fs')
    ∧ fs' !! get_config_file_path = Some ("port 1194 None" +:+ NL).
Proof.
  apply (flush_after_calls_succeeds dot_bak (conf (";port 1194" +:+ NL))
           [("port", VStr "1194", false)]
           [active 0 ";port 1194" "port" "1194"]).
  by vm_compute.
Defined.

Lemma configure_server_missing_setting_witness :
  ∃ self',
    configure_server dot_bak (conf ("port 1194" +:+ NL)) fresh
    = (Raised (NameError "value") self', conf ("port 1194" +:+ NL)).
Proof.
  apply (configure_server_missing_setting dot_bak (conf ("port 1194" +:+ NL)) fresh
           [active 0 "port 1194" "port" "1194"] "proto" "udp").
  - by vm_compute.
  - unfold server_settings. by right; left.
  - intros cfg ->%list_elem_of_singleton [Hc _]. by vm_compute in Hc.
Defined.

Lemma configure_server_last_setting_decides_witness :
  configure_server dot_bak (conf server_conf) fresh
  = (Return false
       (mkOpenVpn
          (Some [active 0 "port 1194" "port" "1194";
                 disabled 1 "port 1195" "port" "1195";
                 active 2 "proto udp" "proto" "udp";
                 active 3 "cipher AES-256-CBC" "cipher" "AES-256-CBC";
                 active 4 "dh dh2048.pem" "dh" "dh2048.pem";
                 active 5 "ca ca.crt" "ca" "ca.crt";
                 active 6 "cert server.crt" "cert" "server.crt";
                 active 7 "key server.key" "key" "server.key"]) false),
     conf server_conf).
Proof.
  apply (proj1 (configure_server_last_setting_decides dot_bak (conf server_conf) fresh
                  [active 0 "port 1194" "port" "1194";
                   active 1 "port 1195" "port" "1195";
                   active 2 "proto udp" "proto" "udp";
                   active 3 "cipher AES-256-CBC" "cipher" "AES-256-CBC";
                   active 4 "dh dh2048.pem" "dh" "dh2048.pem";
                   active 5 "ca ca.crt" "ca" "ca.crt";
                   active 6 "cert server.crt" "cert" "server.crt";
                   active 7 "key server.key" "key" "server.key"]
                  ltac:(by vm_compute)
                  ltac:(apply settings_held; by vm_compute))).
  by vm_compute.
Defined.

Lemma configure_crl_removal_witness :
  ∃ fs',
    configure_crl dot_bak (conf ("crl-verify crl.pem" +:+ NL)) fresh None
    = (Return true
         (mkOpenVpn
            (Some [disabled 0 "crl-verify crl.pem" "crl-verify" "crl.pem"])
            false), fs')
    ∧ fs' !! get_config_file_path = Some (";crl-verify crl.pem None" +:+ NL).
Proof.
  destruct (proj2 (configure_crl_removal dot_bak
                     (conf ("crl-verify crl.pem" +:+ NL)) fresh
                     [active 0 "crl-verify crl.pem" "crl-verify" "crl.pem"]
                     ltac:(by vm_compute)) ltac:(by vm_compute))
    as (fs' & Hr & Hf & _).
  { constructor; [by eexists | constructor]. }
  exists fs'. split; [exact Hr | exact Hf].
Defined.

Lemma configure_crl_with_path_witness :
  (∃ self',
     configure_crl dot_bak (conf ("port 1194" +:+ NL)) fresh (Some "crl.pem")
     = (Raised (NameError "value") self', conf ("port 1194" +:+ NL)))
  ∧ configure_crl dot_bak
      (conf ("crl-verify crl.pem" +:+ NL +:+ "crl-verify old.pem" +:+ NL))
      fresh (Some "crl.pem")
    = (Return false
         (mkOpenVpn
            (Some [active 0 "crl-verify crl.pem" "crl-verify" "crl.pem";
                   disabled 1 "crl-verify old.pem" "crl-verify" "old.pem"])
            false),
       conf ("crl-verify crl.pem" +:+ NL +:+ "crl-verify old.pem" +:+ NL)).
Proof.
  split.
  - apply (proj1 (configure_crl_with_path dot_bak (conf ("port 1194" +:+ NL)) fresh
                    [active 0 "port 1194" "port" "1194"] "crl.pem"
                    ltac:(by vm_compute))).
    intros cfg ->%list_elem_of_singleton [Hc _]. by vm_compute in Hc.
  - apply (proj1 (proj2 (configure_crl_with_path dot_bak
                    (conf ("crl-verify crl.pem" +:+ NL +:+ "crl-verify old.pem"
                           +:+ NL)) fresh
                    [active 0 "crl-verify crl.pem" "crl-verify" "crl.pem";
                     active 1 "crl-verify old.pem" "crl-verify" "old.pem"]
                    "crl.pem" ltac:(by vm_compute))
                  ltac:(eexists; split; [by left | by vm_compute])));
      by vm_compute.
Defined.

(** X15. The kind of a line follows from the first character of its stripped
    text: a blank line has none, a comment starts with [#] or [;], a disabled
    directive with [;], and an active directive with a character of a
    directive name.  The line keeps its position and its stripped text, and a
    directive has a name. *)
Theorem build_kind_by_first_char line i cl :
  ConfigLine.build line i = Ok cl →
  idx cl = Some i ∧ _raw cl = Some (strip line)
  ∧ match ltype cl with
    | Some CONFIG_LINE_BLANK => strip line = ""
    | Some CONFIG_LINE_COMMENT =>
        ∃ s, strip line = String "#" s ∨ strip line = String ";" s
    | Some CONFIG_LINE_CMD_COMMENT =>
        (∃ s, strip line = String ";" s) ∧ is_Some (cmd cl)
    | Some CONFIG_LINE_CMD =>
        (∃ c s, strip line = String c s ∧ token_char c = true)
        ∧ is_Some (cmd cl)
    | None => False
    end.
Proof. exact (build_kind line i cl). Qed.

Lemma build_kind_by_first_char_witness :
  idx (disabled 3 ";port 1194" "port" "1194") = Some 3
  ∧ _raw (disabled 3 ";port 1194" "port" "1194") = Some (strip "  ;port 1194 ")
  ∧ (∃ s, strip "  ;port 1194 " = String ";" s)
    ∧ is_Some (cmd (disabled 3 ";port 1194" "port" "1194")).
Proof.
  apply (build_kind_by_first_char "  ;port 1194 " 3 (disabled 3 ";port 1194" "port" "1194")).
  by vm_compute.
Defined.

Lemma build_blank_line_witness :
  ConfigLine.build ("  " +:+ NL) 2
  = Ok (mkConfigLine (Some 2) (Some "") (Some CONFIG_LINE_BLANK) None ""
          (Some "")).
Proof. apply build_blank_line. by vm_compute. Defined.

Lemma build_hash_line_witness :
  ConfigLine.build ("  # port 1194 ; off" +:+ NL) 0
  = Ok (mkConfigLine (Some 0) (Some "# port 1194 ; off")
          (Some CONFIG_LINE_COMMENT) None "" (Some "")).
Proof.
  by rewrite (build_hash_line _ 0 " port 1194 ; off") by by vm_compute.
Defined.

(** X18. A line that starts with [;] and does not match the directive pattern is
    an ordinary comment, kept with its stripped text. *)
Theorem build_semicolon_line line i s :
  strip line = String ";" s →
  re_match ConfigLine.cmd_re (strip line) = None →
  ConfigLine.build line i
  = Ok (mkConfigLine (Some i) (Some (strip line)) (Some CONFIG_LINE_COMMENT)
          None "" (Some "")).
Proof. exact (build_semicolon_comment line i s). Qed.

Lemma build_semicolon_line_witness :
  ConfigLine.build (" ; off" +:+ NL) 3
  = Ok (mkConfigLine (Some 3) (Some (strip (" ; off" +:+ NL)))
          (Some CONFIG_LINE_COMMENT) None "" (Some "")).
Proof. apply (build_semicolon_line _ 3 " off"); by vm_compute. Defined.

(** X19. [build] raises in one case only: on a line that is not blank and that
    none of the three patterns matches; the exception is [AttributeError]. *)
Theorem build_raises_only_unmatched line i e :
  ConfigLine.build line i = Raise e →
  e = AttributeError
  ∧ strip line ≠ ""
  ∧ re_match ConfigLine.cmt_re (strip line) = None
  ∧ re_match ConfigLine.cmd_cmt_re (strip line) = None
  ∧ re_match ConfigLine.cmd_re (strip line) = None.
Proof. exact (build_raises_only line i e). Qed.

Lemma build_raises_only_unmatched_witness :
  AttributeError = AttributeError
  ∧ strip "persist-key" ≠ ""
  ∧ re_match ConfigLine.cmt_re (strip "persist-key") = None
  ∧ re_match ConfigLine.cmd_cmt_re (strip "persist-key") = None
  ∧ re_match ConfigLine.cmd_re (strip "persist-key") = None.
Proof.
  apply (build_raises_only_unmatched "persist-key" 7 AttributeError).
  by vm_compute.
Defined.

Lemma build_plain_directive_line_witness :
  ConfigLine.build "push route 10.8.0.0 255.255.255.0" 4
  = Ok (mkConfigLine (Some 4) (Some "push route 10.8.0.0 255.255.255.0")
          (Some CONFIG_LINE_CMD) (Some "push") "route 10.8.0.0 255.255.255.0"
          None)
  ∧ ConfigLine.build ";push route 10.8.0.0 255.255.255.0" 4
    = Ok (mkConfigLine (Some 4) (Some ";push route 10.8.0.0 255.255.255.0")
            (Some CONFIG_LINE_CMD_COMMENT) (Some "push")
            "route 10.8.0.0 255.255.255.0" None)
  ∧ ConfigLine.raw
      (mkConfigLine (Some 4) (Some "push route 10.8.0.0 255.255.255.0")
         (Some CONFIG_LINE_CMD) (Some "push") "route 10.8.0.0 255.255.255.0"
         None)
    = Some "push route 10.8.0.0 255.255.255.0 None".
Proof.
  apply (build_plain_directive_line "push" " " "route 10.8.0.0 255.255.255.0" 4);
    by vm_compute.
Defined.

Lemma load_rejects_single_token_witness :
  load_config_file_lines
    (conf ("port 1194" +:+ NL +:+ "persist-key" +:+ NL +:+ "proto udp" +:+ NL))
  = Raise AttributeError
  ∧ ∀ m name values remove,
      set_config_value
        (conf ("port 1194" +:+ NL +:+ "persist-key" +:+ NL +:+ "proto udp" +:+ NL))
        (mkOpenVpn None m) name values remove
      = Raised AttributeError (mkOpenVpn None m).
Proof.
  apply (load_rejects_single_token _
           ("port 1194" +:+ NL +:+ "persist-key" +:+ NL +:+ "proto udp" +:+ NL)
           ("persist-key" +:+ NL)); try by vm_compute.
  vm_compute. by right; left.
Defined.

Lemma load_keeps_positions_witness :
  length [mkConfigLine (Some 0) (Some "# vpn") (Some CONFIG_LINE_COMMENT) None ""
            (Some ""); active 1 "port 1194" "port" "1194"]
  = length (readlines ("  # vpn" +:+ NL +:+ "port 1194" +:+ NL))
  ∧ ∀ k cl,
      [mkConfigLine (Some 0) (Some "# vpn") (Some CONFIG_LINE_COMMENT) None ""
         (Some ""); active 1 "port 1194" "port" "1194"] !! k = Some cl →
      idx cl = Some k
      ∧ ∃ l, readlines ("  # vpn" +:+ NL +:+ "port 1194" +:+ NL) !! k = Some l
             ∧ _raw cl = Some (strip l).
Proof.
  apply (load_keeps_positions (conf ("  # vpn" +:+ NL +:+ "port 1194" +:+ NL)));
    by vm_compute.
Defined.

End Extras.
